(** * easyeda2kicad: the typed parameters of EasyEDA symbols and footprints

    A shallow embedding of [easyeda2kicad/easyeda/parameters_easyeda.py]:
    the field coercion rules (pydantic pre-validators), the entity classes,
    and the unit conversion mutators [convert_to_mm].

    Python floats are IEEE binary64 numbers: they are Rocq's primitive
    floats, whose operations the kernel evaluates exactly as the hardware
    does.  Python objects are mutable and are held by reference: they live
    in a heap, and a mutator rewrites the object stored at a location. *)

From Stdlib Require Import ZArith String Ascii PrimFloat SpecFloat FloatOps FloatAxioms.
From stdpp Require Import base option list relations gmap strings pretty.

#[local] Set Warnings "-inexact-float".
#[local] Open Scope Z_scope.

(** ** Python values and exceptions *)

(** The raw values an attribute record can hold. *)
Inductive value : Type :=
  | VNone
  | VBool (b : bool)
  | VInt (n : Z)
  | VFloat (f : float)
  | VStr (s : string).

(** The class of a raised exception, each under its own name: an
    exception of class [ValidationError] is pydantic's, which derives
    from [ValueError] and is kept apart from it here. *)
Inductive exn : Type :=
  | ValueError
  | TypeError
  | OverflowError
  | AttributeError
  | RecursionError
  | ValidationError.

(** A call either returns or raises. *)
Inductive result (A : Type) : Type :=
  | Ok (a : A)
  | Raise (e : exn).
Arguments Ok {A} a.
Arguments Raise {A} e.

#[global] Instance result_ret : MRet result := fun A a => Ok a.
#[global] Instance result_bind : MBind result := fun A B k r =>
  match r with
  | Ok a => k a
  | Raise e => Raise e
  end.

(** Field after field: a validation error is kept until every field has
    been looked at, any other exception leaves at once. *)
Definition collect {A B : Type} (rf : result (A -> B)) (ra : result A)
    : result B :=
  match rf, ra with
  | Ok f, Ok a => Ok (f a)
  | Ok _, Raise e => Raise e
  | Raise ValidationError, Raise e => Raise e
  | Raise e, _ => Raise e
  end.

Infix "<*>" := collect (at level 61, left associativity).

Definition is_ok {A : Type} (r : result A) : Prop := exists a, r = Ok a.
Definition raises {A : Type} (r : result A) : Prop := exists e, r = Raise e.

(** Python's truth value testing: [None], [False], numeric zero and the
    empty string are false. *)
Definition truthy (v : value) : bool :=
  match v with
  | VNone => false
  | VBool b => b
  | VInt n => negb (n =? 0)
  | VFloat f => negb (PrimFloat.eqb f 0%float)
  | VStr s => negb (String.eqb s "")
  end.

(** [a or b] *)
Definition py_or (a b : value) : value := if truthy a then a else b.

(** [v == s] for a string literal [s]: only a string can equal it. *)
Definition eq_str (v : value) (s : string) : bool :=
  match v with
  | VStr s' => String.eqb s' s
  | _ => false
  end.

(** [sub in s] *)
Fixpoint contains (sub s : string) : bool :=
  String.prefix sub s ||
  match s with
  | EmptyString => false
  | String _ s' => contains sub s'
  end.

(** [s.replace(old, new)] for a non-empty [old]: occurrences are found
    from left to right and do not overlap; [skip] counts the characters of
    an occurrence still to be dropped. *)
Fixpoint replace_from (old new : string) (skip : nat) (s : string) : string :=
  match s with
  | EmptyString => EmptyString
  | String c s' =>
      match skip with
      | S k => replace_from old new k s'
      | O =>
          if String.prefix old s
          then new ++ replace_from old new (String.length old - 1) s'
          else String c (replace_from old new 0 s')
      end
  end.

Definition replace (old new s : string) : string := replace_from old new 0 s.

(** [str.lower()] on ASCII letters. *)
Definition lower_ascii (c : ascii) : ascii :=
  let n := nat_of_ascii c in
  if ((65 <=? n) && (n <=? 90))%nat then ascii_of_nat (n + 32) else c.

Fixpoint lower (s : string) : string :=
  match s with
  | EmptyString => EmptyString
  | String c s' => String (lower_ascii c) (lower s')
  end.

(** The built-in callables [float], [int] and [str] belong to the
    interpreter, not to this program: the development is parametric in
    what they return on each value, or raise. *)
Class Builtins : Type := {
  py_float : value -> result float;
  py_int : value -> result Z;
  py_str : value -> result string
}.

#[global] Instance exn_eq_dec : EqDecision exn.
Proof. solve_decision. Defined.

(** [try: .. except (kinds): raise ValidationError] *)
Definition catch {A : Type} (kinds : list exn) (r : result A) : result A :=
  match r with
  | Ok a => Ok a
  | Raise e => if bool_decide (e ∈ kinds) then Raise ValidationError else Raise e
  end.

(** ** The scalar unit converter *)

(** [def convert_to_mm(dim: float) -> float: return float(dim) * 10 * 0.0254]
    on a float, for which [float(dim)] is [dim]; the product associates to
    the left. *)
Definition convert_to_mm (dim : float) : float :=
  (dim * 10 * 0.0254)%float.

(** ** Field validation (pydantic, version 1)

    A model class declares typed fields and validators.  On construction
    every declared field is looked up in the raw record; a field that is
    absent and has no default is an error; otherwise the [pre=True]
    validators registered for the field (under its name or under the
    wildcard ["*"]) run first, [None] is refused unless the field is
    optional, and the validator of the declared type runs last. *)

Record validator : Type := Validator {
  targets : list string;
  func : value -> result value
}.

Definition pre_validators (vs : list validator) (name : string) : list validator :=
  filter (fun v => name ∈ targets v \/ "*"%string ∈ targets v) vs.

(** An exception of kind [ValueError] or [TypeError] raised by a validator
    is reported as a validation error. *)
Fixpoint apply_validators (fs : list validator) (v : value) : result value :=
  match fs with
  | [] => Ok v
  | f :: fs' =>
      v' ← catch [ValueError; TypeError] (func f v);
      apply_validators fs' v'
  end.

(** The validators of the declared types. *)
Definition str_validator {py : Builtins} (v : value) : result string :=
  match v with
  | VStr s => Ok s
  | VBool _ | VInt _ | VFloat _ => py_str v
  | VNone => Raise ValidationError
  end.

Definition float_validator {py : Builtins} (v : value) : result float :=
  match v with
  | VFloat f => Ok f
  | _ => catch [TypeError; ValueError] (py_float v)
  end.

Definition int_validator {py : Builtins} (v : value) : result Z :=
  match v with
  | VInt n => Ok n
  | _ => catch [TypeError; ValueError; OverflowError] (py_int v)
  end.

Definition BOOL_FALSE : list string := ["0"; "off"; "f"; "false"; "n"; "no"]%string.
Definition BOOL_TRUE : list string := ["1"; "on"; "t"; "true"; "y"; "yes"]%string.

Definition bool_validator (v : value) : result bool :=
  match v with
  | VBool b => Ok b
  | VInt n =>
      if n =? 1 then Ok true else if n =? 0 then Ok false
      else Raise ValidationError
  | VFloat f =>
      if PrimFloat.eqb f 1%float then Ok true
      else if PrimFloat.eqb f 0%float then Ok false
      else Raise ValidationError
  | VStr s =>
      if bool_decide (lower s ∈ BOOL_TRUE) then Ok true
      else if bool_decide (lower s ∈ BOOL_FALSE) then Ok false
      else Raise ValidationError
  | VNone => Raise ValidationError
  end.

(** What remains to do on a value supplied for a field. *)
Definition validate {A : Type} (type_validator : value -> result A)
    (vs : list validator) (name : string) (v : value) : result A :=
  v' ← apply_validators (pre_validators vs name) v;
  match v' with
  | VNone => Raise ValidationError
  | _ => catch [ValueError; TypeError] (type_validator v')
  end.

(** A field declared [name: T]. *)
Definition required {A : Type} (type_validator : value -> result A)
    (vs : list validator) (raw : gmap string value) (name : string) : result A :=
  match raw !! name with
  | None => Raise ValidationError
  | Some v => validate type_validator vs name v
  end.

(** A field declared [name: T = default]. *)
Definition with_default {A : Type} (type_validator : value -> result A)
    (vs : list validator) (raw : gmap string value) (name : string)
    (default : A) : result A :=
  match raw !! name with
  | None => Ok default
  | Some v => validate type_validator vs name v
  end.

(** A field declared [name: Union[T, None]]: it may be absent, and [None]
    is a value of it. *)
Definition optional {A : Type} (type_validator : value -> result A)
    (vs : list validator) (raw : gmap string value) (name : string)
    : result (option A) :=
  match raw !! name with
  | None => Ok None
  | Some v =>
      v' ← apply_validators (pre_validators vs name) v;
      match v' with
      | VNone => Ok None
      | _ => a ← catch [ValueError; TypeError] (type_validator v'); Ok (Some a)
      end
  end.

(** ** The coercion rules shared by several classes *)

(** [return True if field == "show" else field] *)
Definition show_to_true (field : value) : result value :=
  Ok (if eq_str field "show" then VBool true else field).

(** [return field or False] *)
Definition or_false (field : value) : result value :=
  Ok (py_or field (VBool false)).

(** [return rotation or 0.0] *)
Definition or_zero (rotation : value) : result value :=
  Ok (py_or rotation (VFloat 0%float)).

(** [return False if field == "" else field] *)
Definition empty_to_false (field : value) : result value :=
  Ok (if eq_str field "" then VBool false else field).

(** An object is held through its location in the heap. *)
Definition loc : Type := positive.




(** ** Symbol *)

Module EeSymbolBbox.
Record t : Type := Build { x : float; y : float }.
End EeSymbolBbox.

Module EeSymbolPinSettings.
Record t : Type := Build {
  is_displayed : bool;
  type : string;
  spice_pin_number : string;
  pos_x : float;
  pos_y : float;
  rotation : Z;
  id : string;
  is_locked : bool
}.

Definition fields : list string :=
  ["is_displayed"; "type"; "spice_pin_number"; "pos_x"; "pos_y";
   "rotation"; "id"; "is_locked"]%string.

Definition parse_display_field : value -> result value := show_to_true.
Definition empty_str_lock : value -> result value := or_false.
Definition empty_str_rotation : value -> result value := or_zero.

Definition validators : list validator :=
  [ Validator ["is_displayed"%string] parse_display_field;
    Validator ["is_locked"%string] empty_str_lock;
    Validator ["rotation"%string] empty_str_rotation ].

Definition parse_obj {py : Builtins} (raw : gmap string value) : result t :=
  Ok Build
    <*> required bool_validator validators raw "is_displayed"
    <*> required str_validator validators raw "type"
    <*> required str_validator validators raw "spice_pin_number"
    <*> required float_validator validators raw "pos_x"
    <*> required float_validator validators raw "pos_y"
    <*> required int_validator validators raw "rotation"
    <*> required str_validator validators raw "id"
    <*> required bool_validator validators raw "is_locked".
End EeSymbolPinSettings.

Module EeSymbolPinDot.
Record t : Type := Build { dot_x : float; dot_y : float }.
End EeSymbolPinDot.

(** A dataclass: its fields are not validated. *)
Module EeSymbolPinPath.
Record t : Type := Build { path : string; color : string }.
End EeSymbolPinPath.

Module EeSymbolPinName.
Record t : Type := Build {
  is_displayed : bool;
  pos_x : float;
  pos_y : float;
  rotation : Z;
  text : string;
  text_anchor : string;
  font : string;
  font_size : float
}.

(** [if isinstance(font_size, str) and "pt" in font_size:
       return float(font_size.replace("pt", ""))
     return font_size or 7.0] *)
Definition empty_str_font {py : Builtins} (font_size : value) : result value :=
  match font_size with
  | VStr s =>
      if contains "pt" s
      then f ← py_float (VStr (replace "pt" "" s)); Ok (VFloat f)
      else Ok (py_or font_size (VFloat 7%float))
  | _ => Ok (py_or font_size (VFloat 7%float))
  end.

Definition parse_display_field : value -> result value := show_to_true.
Definition empty_str_rotation : value -> result value := or_zero.

Definition validators {py : Builtins} : list validator :=
  [ Validator ["font_size"%string] empty_str_font;
    Validator ["is_displayed"%string] parse_display_field;
    Validator ["rotation"%string] empty_str_rotation ].

Definition parse_obj {py : Builtins} (raw : gmap string value) : result t :=
  Ok Build
    <*> required bool_validator validators raw "is_displayed"
    <*> required float_validator validators raw "pos_x"
    <*> required float_validator validators raw "pos_y"
    <*> required int_validator validators raw "rotation"
    <*> required str_validator validators raw "text"
    <*> required str_validator validators raw "text_anchor"
    <*> required str_validator validators raw "font"
    <*> required float_validator validators raw "font_size".
End EeSymbolPinName.

Module EeSymbolPinDotBis.
Record t : Type := Build {
  is_displayed : bool;
  circle_x : float;
  circle_y : float
}.

Definition parse_display_field : value -> result value := show_to_true.

Definition validators : list validator :=
  [ Validator ["is_displayed"%string] parse_display_field ].
End EeSymbolPinDotBis.

Module EeSymbolPinClock.
Record t : Type := Build { is_displayed : bool; path : string }.

Definition parse_display_field : value -> result value := show_to_true.

Definition validators : list validator :=
  [ Validator ["is_displayed"%string] parse_display_field ].
End EeSymbolPinClock.

(** A dataclass holding six objects. *)
Module EeSymbolPin.
Record t : Type := Build {
  settings : loc;
  pin_dot : loc;
  pin_path : loc;
  name : loc;
  dot : loc;
  clock : loc
}.
End EeSymbolPin.

Module EeSymbolRectangle.
Record t : Type := Build {
  pos_x : float;
  pos_y : float;
  rx : option float;
  ry : option float;
  width : float;
  height : float;
  stroke_color : string;
  stroke_width : string;
  stroke_style : string;
  fill_color : string;
  id : string;
  is_locked : bool
}.

Definition fields : list string :=
  ["pos_x"; "pos_y"; "rx"; "ry"; "width"; "height"; "stroke_color";
   "stroke_width"; "stroke_style"; "fill_color"; "id"; "is_locked"]%string.

(** [@validator("*", pre=True)]: [return field or None] *)
Definition empty_str_to_none (field : value) : result value :=
  Ok (py_or field VNone).

Definition validators : list validator :=
  [ Validator ["*"%string] empty_str_to_none ].

Definition parse_obj {py : Builtins} (raw : gmap string value) : result t :=
  Ok Build
    <*> required float_validator validators raw "pos_x"
    <*> required float_validator validators raw "pos_y"
    <*> optional float_validator validators raw "rx"
    <*> optional float_validator validators raw "ry"
    <*> required float_validator validators raw "width"
    <*> required float_validator validators raw "height"
    <*> required str_validator validators raw "stroke_color"
    <*> required str_validator validators raw "stroke_width"
    <*> required str_validator validators raw "stroke_style"
    <*> required str_validator validators raw "fill_color"
    <*> required str_validator validators raw "id"
    <*> required bool_validator validators raw "is_locked".
End EeSymbolRectangle.

(** [class EeSymbolCircle(BaseModel): ...] and [class EeSymbolArc(BaseModel): ...]
    declare no field. *)
Module EeSymbolCircle.
Record t : Type := Build { }.
End EeSymbolCircle.

Module EeSymbolArc.
Record t : Type := Build { }.
End EeSymbolArc.

(** [EeSymbolPolygon] inherits every field and validator from
    [EeSymbolPolyline]. *)
Module EeSymbolPolyline.
Record t : Type := Build {
  points : string;
  stroke_color : string;
  stroke_width : string;
  stroke_style : string;
  fill_color : string;
  id : string;
  is_locked : bool
}.

Definition empty_str_lock : value -> result value := or_false.

Definition validators : list validator :=
  [ Validator ["is_locked"%string] empty_str_lock ].
End EeSymbolPolyline.

Module EeSymbolPath.
Record t : Type := Build {
  paths : string;
  stroke_color : string;
  stroke_width : string;
  stroke_style : string;
  fill_color : string;
  id : string;
  is_locked : bool
}.

Definition empty_str_lock : value -> result value := or_false.

Definition validators : list validator :=
  [ Validator ["is_locked"%string] empty_str_lock ].
End EeSymbolPath.

Module EeSymbolInfo.
Record t : Type := Build {
  name : string;
  prefix : string;
  package : string;
  manufacturer : string;
  datasheet : string;
  lcsc_id : string;
  jlc_id : string
}.
End EeSymbolInfo.

Module EeSymbol.
Record t : Type := Build {
  info : loc;
  bbox : loc;
  pins : list loc;
  rectangles : list loc;
  polylines : list loc;
  polygons : list loc;
  paths : list loc
}.
End EeSymbol.

(** ** Footprint *)

(** A dataclass. *)
Module EeFootprintBbox.
Record t : Type := Build { x : float; y : float }.

Definition convert_to_mm (self : t) : t :=
  Build (convert_to_mm (x self)) (convert_to_mm (y self)).
End EeFootprintBbox.

Module EeFootprintPad.
Record t : Type := Build {
  shape : string;
  center_x : float;
  center_y : float;
  width : float;
  height : float;
  layer_id : Z;
  net : string;
  number : string;
  hole_radius : float;
  points : string;
  rotation : float;
  id : string;
  hole_length : float;
  hole_point : string;
  is_plated : bool;
  is_locked : bool
}.

Definition fields : list string :=
  ["shape"; "center_x"; "center_y"; "width"; "height"; "layer_id"; "net";
   "number"; "hole_radius"; "points"; "rotation"; "id"; "hole_length";
   "hole_point"; "is_plated"; "is_locked"]%string.

(** Six assignments [self.f = convert_to_mm(self.f)]. *)
Definition convert_to_mm (self : t) : t :=
  {| shape := shape self;
     center_x := convert_to_mm (center_x self);
     center_y := convert_to_mm (center_y self);
     width := convert_to_mm (width self);
     height := convert_to_mm (height self);
     layer_id := layer_id self;
     net := net self;
     number := number self;
     hole_radius := convert_to_mm (hole_radius self);
     points := points self;
     rotation := rotation self;
     id := id self;
     hole_length := convert_to_mm (hole_length self);
     hole_point := hole_point self;
     is_plated := is_plated self;
     is_locked := is_locked self |}.

Definition empty_str_lock : value -> result value := or_false.
Definition empty_str_rotation : value -> result value := or_zero.

Definition validators : list validator :=
  [ Validator ["is_locked"%string] empty_str_lock;
    Validator ["rotation"%string] empty_str_rotation ].

Definition parse_obj {py : Builtins} (raw : gmap string value) : result t :=
  Ok Build
    <*> required str_validator validators raw "shape"
    <*> required float_validator validators raw "center_x"
    <*> required float_validator validators raw "center_y"
    <*> required float_validator validators raw "width"
    <*> required float_validator validators raw "height"
    <*> required int_validator validators raw "layer_id"
    <*> required str_validator validators raw "net"
    <*> required str_validator validators raw "number"
    <*> required float_validator validators raw "hole_radius"
    <*> required str_validator validators raw "points"
    <*> required float_validator validators raw "rotation"
    <*> required str_validator validators raw "id"
    <*> required float_validator validators raw "hole_length"
    <*> required str_validator validators raw "hole_point"
    <*> required bool_validator validators raw "is_plated"
    <*> required bool_validator validators raw "is_locked".
End EeFootprintPad.

Module EeFootprintTrack.
Record t : Type := Build {
  stroke_width : float;
  layer_id : Z;
  net : string;
  points : string;
  id : string;
  is_locked : bool
}.

Definition empty_str_lock : value -> result value := or_false.

Definition validators : list validator :=
  [ Validator ["is_locked"%string] empty_str_lock ].

Definition convert_to_mm (self : t) : t :=
  {| stroke_width := convert_to_mm (stroke_width self);
     layer_id := layer_id self;
     net := net self;
     points := points self;
     id := id self;
     is_locked := is_locked self |}.
End EeFootprintTrack.

Module EeFootprintHole.
Record t : Type := Build {
  center_x : float;
  center_y : float;
  radius : float;
  id : string;
  is_locked : bool
}.

Definition empty_str_lock : value -> result value := or_false.

Definition validators : list validator :=
  [ Validator ["is_locked"%string] empty_str_lock ].

Definition convert_to_mm (self : t) : t :=
  {| center_x := convert_to_mm (center_x self);
     center_y := convert_to_mm (center_y self);
     radius := convert_to_mm (radius self);
     id := id self;
     is_locked := is_locked self |}.
End EeFootprintHole.

Module EeFootprintCircle.
Record t : Type := Build {
  cx : float;
  cy : float;
  radius : float;
  stroke_width : float;
  layer_id : Z;
  id : string;
  is_locked : bool
}.

Definition empty_str_lock : value -> result value := or_false.

Definition validators : list validator :=
  [ Validator ["is_locked"%string] empty_str_lock ].

Definition convert_to_mm (self : t) : t :=
  {| cx := convert_to_mm (cx self);
     cy := convert_to_mm (cy self);
     radius := convert_to_mm (radius self);
     stroke_width := convert_to_mm (stroke_width self);
     layer_id := layer_id self;
     id := id self;
     is_locked := is_locked self |}.
End EeFootprintCircle.

Module EeFootprintRectangle.
Record t : Type := Build {
  x : float;
  y : float;
  width : float;
  height : float;
  stroke_width : float;
  id : string;
  layer_id : Z;
  is_locked : bool
}.

Definition empty_str_lock : value -> result value := empty_to_false.

Definition validators : list validator :=
  [ Validator ["is_locked"%string] empty_str_lock ].

Definition convert_to_mm (self : t) : t :=
  {| x := convert_to_mm (x self);
     y := convert_to_mm (y self);
     width := convert_to_mm (width self);
     height := convert_to_mm (height self);
     stroke_width := stroke_width self;
     id := id self;
     layer_id := layer_id self;
     is_locked := is_locked self |}.
End EeFootprintRectangle.

(** The class declares a validator and no method. *)
Module EeFootprintArc.
Record t : Type := Build {
  stroke_width : float;
  layer_id : Z;
  net : string;
  path : string;
  helper_dots : string;
  id : string;
  is_locked : bool
}.

Definition empty_str_lock : value -> result value := empty_to_false.

Definition validators : list validator :=
  [ Validator ["is_locked"%string] empty_str_lock ].
End EeFootprintArc.

Module EeFootprintText.
Record t : Type := Build {
  type : string;
  center_x : float;
  center_y : float;
  stroke_width : float;
  rotation : Z;
  miror : string;
  layer_id : Z;
  net : string;
  font_size : float;
  text : string;
  text_path : string;
  is_displayed : bool;
  id : string;
  is_locked : bool
}.

(** [return True if field == "" else field] *)
Definition empty_str_display (field : value) : result value :=
  Ok (if eq_str field "" then VBool true else field).

Definition empty_str_lock : value -> result value := empty_to_false.

(** [return 0.0 if field == "" else field] *)
Definition empty_str_rotation (field : value) : result value :=
  Ok (if eq_str field "" then VFloat 0%float else field).

Definition validators : list validator :=
  [ Validator ["is_displayed"%string] empty_str_display;
    Validator ["is_locked"%string] empty_str_lock;
    Validator ["rotation"%string] empty_str_rotation ].

Definition convert_to_mm (self : t) : t :=
  {| type := type self;
     center_x := convert_to_mm (center_x self);
     center_y := convert_to_mm (center_y self);
     stroke_width := convert_to_mm (stroke_width self);
     rotation := rotation self;
     miror := miror self;
     layer_id := layer_id self;
     net := net self;
     font_size := convert_to_mm (font_size self);
     text := text self;
     text_path := text_path self;
     is_displayed := is_displayed self;
     id := id self;
     is_locked := is_locked self |}.
End EeFootprintText.

Module EeFootprintInfo.
Record t : Type := Build {
  name : string;
  fp_type : string;
  model_3d_name : string
}.
End EeFootprintInfo.

(** ** 3D model *)

Module Ee3dModelBase.
Record t : Type := Build { x : float; y : float; z : float }.

(** [self.z] is not assigned: the line is commented out in the source. *)
Definition convert_to_mm (self : t) : t :=
  {| x := convert_to_mm (x self);
     y := convert_to_mm (y self);
     z := z self |}.

(** Each field has the default [0.0]. *)
Definition parse_obj {py : Builtins} (raw : gmap string value) : result t :=
  Ok Build
    <*> with_default float_validator [] raw "x" 0%float
    <*> with_default float_validator [] raw "y" 0%float
    <*> with_default float_validator [] raw "z" 0%float.
End Ee3dModelBase.

(** A dataclass holding two [Ee3dModelBase] objects. *)
Module Ee3dModel.
Record t : Type := Build {
  name : string;
  uuid : string;
  translation : loc;
  rotation : loc;
  raw_obj : option string
}.
End Ee3dModel.

Module ee_footprint.
Record t : Type := Build {
  info : loc;
  bbox : loc;
  model_3d : loc;
  pads : list loc;
  tracks : list loc;
  holes : list loc;
  circles : list loc;
  arcs : list loc;
  rectangles : list loc;
  texts : list loc
}.
End ee_footprint.

(** ** The heap and the calls of [convert_to_mm] *)

Inductive object : Type :=
  | OEeSymbolBbox (o : EeSymbolBbox.t)
  | OEeSymbolPinSettings (o : EeSymbolPinSettings.t)
  | OEeSymbolPinDot (o : EeSymbolPinDot.t)
  | OEeSymbolPinPath (o : EeSymbolPinPath.t)
  | OEeSymbolPinName (o : EeSymbolPinName.t)
  | OEeSymbolPinDotBis (o : EeSymbolPinDotBis.t)
  | OEeSymbolPinClock (o : EeSymbolPinClock.t)
  | OEeSymbolPin (o : EeSymbolPin.t)
  | OEeSymbolRectangle (o : EeSymbolRectangle.t)
  | OEeSymbolCircle (o : EeSymbolCircle.t)
  | OEeSymbolArc (o : EeSymbolArc.t)
  | OEeSymbolPolyline (o : EeSymbolPolyline.t)
  | OEeSymbolPolygon (o : EeSymbolPolyline.t)
  | OEeSymbolPath (o : EeSymbolPath.t)
  | OEeSymbolInfo (o : EeSymbolInfo.t)
  | OEeSymbol (o : EeSymbol.t)
  | OEeFootprintBbox (o : EeFootprintBbox.t)
  | OEeFootprintPad (o : EeFootprintPad.t)
  | OEeFootprintTrack (o : EeFootprintTrack.t)
  | OEeFootprintHole (o : EeFootprintHole.t)
  | OEeFootprintCircle (o : EeFootprintCircle.t)
  | OEeFootprintRectangle (o : EeFootprintRectangle.t)
  | OEeFootprintArc (o : EeFootprintArc.t)
  | OEeFootprintText (o : EeFootprintText.t)
  | OEeFootprintInfo (o : EeFootprintInfo.t)
  | OEe3dModelBase (o : Ee3dModelBase.t)
  | OEe3dModel (o : Ee3dModel.t)
  | Oee_footprint (o : ee_footprint.t).

(** The classes of the symbol family. *)
Definition symbol_family (o : object) : bool :=
  match o with
  | OEeSymbolBbox _ | OEeSymbolPinSettings _ | OEeSymbolPinDot _
  | OEeSymbolPinPath _ | OEeSymbolPinName _ | OEeSymbolPinDotBis _
  | OEeSymbolPinClock _ | OEeSymbolPin _ | OEeSymbolRectangle _
  | OEeSymbolCircle _ | OEeSymbolArc _ | OEeSymbolPolyline _
  | OEeSymbolPolygon _ | OEeSymbolPath _ | OEeSymbolInfo _
  | OEeSymbol _ => true
  | _ => false
  end.

(** The footprint classes that declare a field holding a length. *)
Definition footprint_with_lengths (o : object) : bool :=
  match o with
  | OEeFootprintBbox _ | OEeFootprintPad _ | OEeFootprintTrack _
  | OEeFootprintHole _ | OEeFootprintCircle _ | OEeFootprintRectangle _
  | OEeFootprintArc _ | OEeFootprintText _ => true
  | _ => false
  end.

(** [obj.convert_to_mm()] on the object at [l]: the method is looked up in
    the class of the object, and a class without it raises
    [AttributeError] (so does a reference to no object).
    [Ee3dModel.convert_to_mm] is the call
    [self.translation.convert_to_mm()], one level deeper; [depth] is what
    is left of the interpreter's recursion limit. *)
Fixpoint call_convert_to_mm (depth : nat) (l : loc) (h : gmap loc object)
    : result (gmap loc object) :=
  match depth with
  | O => Raise RecursionError
  | S depth' =>
      match h !! l with
      | Some (OEeFootprintBbox o) =>
          Ok (<[l := OEeFootprintBbox (EeFootprintBbox.convert_to_mm o)]> h)
      | Some (OEeFootprintPad o) =>
          Ok (<[l := OEeFootprintPad (EeFootprintPad.convert_to_mm o)]> h)
      | Some (OEeFootprintTrack o) =>
          Ok (<[l := OEeFootprintTrack (EeFootprintTrack.convert_to_mm o)]> h)
      | Some (OEeFootprintHole o) =>
          Ok (<[l := OEeFootprintHole (EeFootprintHole.convert_to_mm o)]> h)
      | Some (OEeFootprintCircle o) =>
          Ok (<[l := OEeFootprintCircle (EeFootprintCircle.convert_to_mm o)]> h)
      | Some (OEeFootprintRectangle o) =>
          Ok (<[l := OEeFootprintRectangle (EeFootprintRectangle.convert_to_mm o)]> h)
      | Some (OEeFootprintText o) =>
          Ok (<[l := OEeFootprintText (EeFootprintText.convert_to_mm o)]> h)
      | Some (OEe3dModelBase o) =>
          Ok (<[l := OEe3dModelBase (Ee3dModelBase.convert_to_mm o)]> h)
      | Some (OEe3dModel o) =>
          call_convert_to_mm depth' (Ee3dModel.translation o) h
      | _ => Raise AttributeError
      end
  end.

(** One operation of the layer on constructed objects: a call of
    [convert_to_mm] that returns. *)
Definition step (h h' : gmap loc object) : Prop :=
  exists depth l, call_convert_to_mm depth l h = Ok h'.

(** The classes whose [convert_to_mm] assigns to [self]. *)
Definition assigns_to_self (o : object) : bool :=
  match o with
  | OEeFootprintBbox _ | OEeFootprintPad _ | OEeFootprintTrack _
  | OEeFootprintHole _ | OEeFootprintCircle _ | OEeFootprintRectangle _
  | OEeFootprintText _ | OEe3dModelBase _ => true
  | _ => false
  end.

Definition is_arc (o : object) : bool :=
  match o with
  | OEeFootprintArc _ => true
  | _ => false
  end.

(** ** Examples *)

(** The examples supply every field with a value of its declared type, on
    which pydantic calls no conversion.  They run with this interpreter,
    which returns such a value as it is and raises on any other. *)
Definition in_type_only : Builtins :=
  {| py_float v := match v with VFloat f => Ok f | _ => Raise TypeError end;
     py_int v := match v with VInt n => Ok n | _ => Raise TypeError end;
     py_str v := match v with VStr s => Ok s | _ => Raise TypeError end |}.

(** The pad of the second end-to-end scenario, and what it must become. *)
Definition scenario_pad : EeFootprintPad.t :=
  {| EeFootprintPad.shape := "RECT";
     EeFootprintPad.center_x := 100;
     EeFootprintPad.center_y := 100;
     EeFootprintPad.width := 10;
     EeFootprintPad.height := 10;
     EeFootprintPad.layer_id := 1;
     EeFootprintPad.net := "";
     EeFootprintPad.number := "1";
     EeFootprintPad.hole_radius := 0;
     EeFootprintPad.points := "";
     EeFootprintPad.rotation := 90;
     EeFootprintPad.id := "gge5";
     EeFootprintPad.hole_length := 0;
     EeFootprintPad.hole_point := "";
     EeFootprintPad.is_plated := true;
     EeFootprintPad.is_locked := false |}.

Definition scenario_pad_mm : EeFootprintPad.t :=
  {| EeFootprintPad.shape := "RECT";
     EeFootprintPad.center_x := 25.4;
     EeFootprintPad.center_y := 25.4;
     EeFootprintPad.width := 2.54;
     EeFootprintPad.height := 2.54;
     EeFootprintPad.layer_id := 1;
     EeFootprintPad.net := "";
     EeFootprintPad.number := "1";
     EeFootprintPad.hole_radius := 0;
     EeFootprintPad.points := "";
     EeFootprintPad.rotation := 90;
     EeFootprintPad.id := "gge5";
     EeFootprintPad.hole_length := 0;
     EeFootprintPad.hole_point := "";
     EeFootprintPad.is_plated := true;
     EeFootprintPad.is_locked := false |}.

(** The placement of the third scenario: the model at 1, its translation
    at 2 and its rotation at 3. *)
Definition scenario_model : Ee3dModel.t :=
  {| Ee3dModel.name := "R0603";
     Ee3dModel.uuid := "a1b2";
     Ee3dModel.translation := 2%positive;
     Ee3dModel.rotation := 3%positive;
     Ee3dModel.raw_obj := None |}.

Definition scenario_heap : gmap loc object :=
  {[ 1%positive := OEe3dModel scenario_model;
     2%positive := OEe3dModelBase (Ee3dModelBase.Build 10 20 30);
     3%positive := OEe3dModelBase (Ee3dModelBase.Build 0 0 90) ]}.

(** A symbol bounding box at 1, a pad at 2 and an arc at 3. *)
Definition scenario_arc : EeFootprintArc.t :=
  {| EeFootprintArc.stroke_width := 1;
     EeFootprintArc.layer_id := 3;
     EeFootprintArc.net := "";
     EeFootprintArc.path := "M 10 10 A 5 5 0 0 1 20 20";
     EeFootprintArc.helper_dots := "";
     EeFootprintArc.id := "gge9";
     EeFootprintArc.is_locked := false |}.

Definition mixed_heap : gmap loc object :=
  {[ 1%positive := OEeSymbolBbox (EeSymbolBbox.Build 400 300);
     2%positive := OEeFootprintPad scenario_pad;
     3%positive := OEeFootprintArc scenario_arc ]}.

(** Raw records.  A pin whose electrical type is no member of the
    enumeration; a rectangle whose width is the empty string, and one
    whose corner radii are. *)
Definition raw_pin_settings (type : string) : gmap string value :=
  {[ "is_displayed"%string := VStr "show";
     "type"%string := VStr type;
     "spice_pin_number"%string := VStr "1";
     "pos_x"%string := VFloat 390;
     "pos_y"%string := VFloat 300;
     "rotation"%string := VInt 180;
     "id"%string := VStr "gge12";
     "is_locked"%string := VBool false ]}.

Definition raw_rectangle (rx ry width : value) : gmap string value :=
  {[ "pos_x"%string := VFloat 395;
     "pos_y"%string := VFloat 290;
     "rx"%string := rx;
     "ry"%string := ry;
     "width"%string := width;
     "height"%string := VFloat 20;
     "stroke_color"%string := VStr "#880000";
     "stroke_width"%string := VStr "1";
     "stroke_style"%string := VStr "0";
     "fill_color"%string := VStr "none";
     "id"%string := VStr "gge7";
     "is_locked"%string := VStr "yes" ]}.

(** [type(o).__name__] *)
Definition class_name (o : object) : string :=
  match o with
  | OEeSymbolBbox _ => "EeSymbolBbox"
  | OEeSymbolPinSettings _ => "EeSymbolPinSettings"
  | OEeSymbolPinDot _ => "EeSymbolPinDot"
  | OEeSymbolPinPath _ => "EeSymbolPinPath"
  | OEeSymbolPinName _ => "EeSymbolPinName"
  | OEeSymbolPinDotBis _ => "EeSymbolPinDotBis"
  | OEeSymbolPinClock _ => "EeSymbolPinClock"
  | OEeSymbolPin _ => "EeSymbolPin"
  | OEeSymbolRectangle _ => "EeSymbolRectangle"
  | OEeSymbolCircle _ => "EeSymbolCircle"
  | OEeSymbolArc _ => "EeSymbolArc"
  | OEeSymbolPolyline _ => "EeSymbolPolyline"
  | OEeSymbolPolygon _ => "EeSymbolPolygon"
  | OEeSymbolPath _ => "EeSymbolPath"
  | OEeSymbolInfo _ => "EeSymbolInfo"
  | OEeSymbol _ => "EeSymbol"
  | OEeFootprintBbox _ => "EeFootprintBbox"
  | OEeFootprintPad _ => "EeFootprintPad"
  | OEeFootprintTrack _ => "EeFootprintTrack"
  | OEeFootprintHole _ => "EeFootprintHole"
  | OEeFootprintCircle _ => "EeFootprintCircle"
  | OEeFootprintRectangle _ => "EeFootprintRectangle"
  | OEeFootprintArc _ => "EeFootprintArc"
  | OEeFootprintText _ => "EeFootprintText"
  | OEeFootprintInfo _ => "EeFootprintInfo"
  | OEe3dModelBase _ => "Ee3dModelBase"
  | OEe3dModel _ => "Ee3dModel"
  | Oee_footprint _ => "ee_footprint"
  end.

(** A placement that was given one vector twice, as its translation and as
    its rotation. *)
Definition shared_vector_model : Ee3dModel.t :=
  {| Ee3dModel.name := "R0603";
     Ee3dModel.uuid := "a1b2";
     Ee3dModel.translation := 2%positive;
     Ee3dModel.rotation := 2%positive;
     Ee3dModel.raw_obj := None |}.

Definition shared_vector_heap : gmap loc object :=
  {[ 1%positive := OEe3dModel shared_vector_model;
     2%positive := OEe3dModelBase (Ee3dModelBase.Build 10 20 30) ]}.

(** A footprint: its aggregate at 1, a pad at 2, a rectangle at 3, a
    text at 4 and a track at 5. *)
Definition scenario_rectangle : EeFootprintRectangle.t :=
  {| EeFootprintRectangle.x := 100;
     EeFootprintRectangle.y := 100;
     EeFootprintRectangle.width := 20;
     EeFootprintRectangle.height := 10;
     EeFootprintRectangle.stroke_width := 10;
     EeFootprintRectangle.id := "gge20";
     EeFootprintRectangle.layer_id := 3;
     EeFootprintRectangle.is_locked := false |}.

Definition scenario_text : EeFootprintText.t :=
  {| EeFootprintText.type := "L";
     EeFootprintText.center_x := 100;
     EeFootprintText.center_y := 20;
     EeFootprintText.stroke_width := 10;
     EeFootprintText.rotation := 90;
     EeFootprintText.miror := "";
     EeFootprintText.layer_id := 3;
     EeFootprintText.net := "";
     EeFootprintText.font_size := 20;
     EeFootprintText.text := "R1";
     EeFootprintText.text_path := "";
     EeFootprintText.is_displayed := true;
     EeFootprintText.id := "gge21";
     EeFootprintText.is_locked := false |}.

Definition scenario_track : EeFootprintTrack.t :=
  {| EeFootprintTrack.stroke_width := 10;
     EeFootprintTrack.layer_id := 3;
     EeFootprintTrack.net := "";
     EeFootprintTrack.points := "0 0 10 10";
     EeFootprintTrack.id := "gge22";
     EeFootprintTrack.is_locked := false |}.

Definition scenario_footprint : ee_footprint.t :=
  {| ee_footprint.info := 6%positive;
     ee_footprint.bbox := 7%positive;
     ee_footprint.model_3d := 8%positive;
     ee_footprint.pads := [2%positive];
     ee_footprint.tracks := [5%positive];
     ee_footprint.holes := [];
     ee_footprint.circles := [];
     ee_footprint.arcs := [];
     ee_footprint.rectangles := [3%positive];
     ee_footprint.texts := [4%positive] |}.

Definition footprint_heap : gmap loc object :=
  {[ 1%positive := Oee_footprint scenario_footprint;
     2%positive := OEeFootprintPad scenario_pad;
     3%positive := OEeFootprintRectangle scenario_rectangle;
     4%positive := OEeFootprintText scenario_text;
     5%positive := OEeFootprintTrack scenario_track ]}.

(** The raw record of a pad, with its rotation and lock flag as given. *)
Definition raw_pad (rotation is_locked : value) : gmap string value :=
  list_to_map
    [ ("shape"%string, VStr "RECT");
      ("center_x"%string, VFloat 100);
      ("center_y"%string, VFloat 100);
      ("width"%string, VFloat 10);
      ("height"%string, VFloat 10);
      ("layer_id"%string, VInt 1);
      ("net"%string, VStr "");
      ("number"%string, VStr "1");
      ("hole_radius"%string, VFloat 0);
      ("points"%string, VStr "");
      ("rotation"%string, rotation);
      ("id"%string, VStr "gge5");
      ("hole_length"%string, VFloat 0);
      ("hole_point"%string, VStr "");
      ("is_plated"%string, VBool true);
      ("is_locked"%string, is_locked) ].

(** The raw record of a pin label, with its font size as given. *)
Definition raw_pin_name (font_size : value) : gmap string value :=
  {[ "is_displayed"%string := VStr "show";
     "pos_x"%string := VFloat 380;
     "pos_y"%string := VFloat 300;
     "rotation"%string := VInt 180;
     "text"%string := VStr "VCC";
     "text_anchor"%string := VStr "start";
     "font"%string := VStr "";
     "font_size"%string := font_size ]}.

(** An interpreter for the first end-to-end scenario: as [in_type_only],
    and [int(0.0)] is 0. *)
Definition in_type_and_zero : Builtins :=
  {| py_float v := match v with VFloat f => Ok f | _ => Raise TypeError end;
     py_int v :=
       match v with
       | VInt n => Ok n
       | VFloat f => if PrimFloat.eqb f 0 then Ok 0 else Raise TypeError
       | _ => Raise TypeError
       end;
     py_str v := match v with VStr s => Ok s | _ => Raise TypeError end |}.

(** The scenario pad moved to x = 19, and a placement whose translation
    is at x = 19: the model at 1, its translation at 2, its rotation
    at 3. *)
Definition pad_at_19 : EeFootprintPad.t :=
  {| EeFootprintPad.shape := "RECT";
     EeFootprintPad.center_x := 19;
     EeFootprintPad.center_y := 100;
     EeFootprintPad.width := 10;
     EeFootprintPad.height := 10;
     EeFootprintPad.layer_id := 1;
     EeFootprintPad.net := "";
     EeFootprintPad.number := "1";
     EeFootprintPad.hole_radius := 0;
     EeFootprintPad.points := "";
     EeFootprintPad.rotation := 90;
     EeFootprintPad.id := "gge5";
     EeFootprintPad.hole_length := 0;
     EeFootprintPad.hole_point := "";
     EeFootprintPad.is_plated := true;
     EeFootprintPad.is_locked := false |}.

Definition translation_19_heap : gmap loc object :=
  {[ 1%positive := OEe3dModel scenario_model;
     2%positive := OEe3dModelBase (Ee3dModelBase.Build 19 20 30);
     3%positive := OEe3dModelBase (Ee3dModelBase.Build 0 0 90) ]}.

(** An interpreter for a font size that is no number: as [in_type_only],
    except that [float] raises [ValueError] on a string, as Python does
    on ["a"]. *)
Definition float_refuses_strings : Builtins :=
  {| py_float v :=
       match v with
       | VFloat f => Ok f
       | VStr _ => Raise ValueError
       | _ => Raise TypeError
       end;
     py_int v := match v with VInt n => Ok n | _ => Raise TypeError end;
     py_str v := match v with VStr s => Ok s | _ => Raise TypeError end |}.

(** ** The scalar unit converter *)

(** C1, as the code has it.  [convert_to_mm x] is the binary64 product
    [(x * 10) * 0.0254], evaluated from left to right.  The product of the
    two factors, [10 * 0.0254], is the double [0.254], and on the lengths
    of the end-to-end scenarios [convert_to_mm x] is the product
    [x * 0.254]; it is not so for every [x], because the multiplication of
    floats does not associate. *)
Theorem convert_to_mm_left_to_right :
  (forall x : float, convert_to_mm x = (x * 10 * 0.0254)%float) /\
  (10 * 0.0254)%float = 0.254%float /\
  convert_to_mm 0 = (0 * 0.254)%float /\
  convert_to_mm 10 = (10 * 0.254)%float /\
  convert_to_mm 20 = (20 * 0.254)%float /\
  convert_to_mm 100 = (100 * 0.254)%float.
Proof. repeat split; vm_compute; reflexivity. Qed.

(** C1 fails at 19: [convert_to_mm(19.0)] is [4.826] and [19.0 * 0.254]
    is [4.8260000000000005], so [==] is false. *)
Lemma convert_to_mm_19_differs :
  convert_to_mm 19 = 4.826%float /\
  (19 * 0.254)%float = 4.8260000000000005%float /\
  PrimFloat.eqb (convert_to_mm 19) (19 * 0.254) = false.
Proof. repeat split; vm_compute; reflexivity. Qed.

(** ** The mutators *)

(** C2, as the code has it.  A call of [convert_to_mm] on a pad returns,
    and rewrites the pad in place: [center_x], [center_y], [width],
    [height], [hole_radius] and [hole_length] went through the scalar
    converter, which gives the product [(x * 10) * 0.0254] and not, for
    every [x], the product [x * 0.254]; the ten other fields are as
    before, and no other object changed. *)
Theorem pad_convert_to_mm_six_fields
    (depth : nat) (l : loc) (h : gmap loc object) (p : EeFootprintPad.t) :
  h !! l = Some (OEeFootprintPad p) ->
  exists p' : EeFootprintPad.t,
    call_convert_to_mm (S depth) l h = Ok (<[l := OEeFootprintPad p']> h) /\
    EeFootprintPad.center_x p' = convert_to_mm (EeFootprintPad.center_x p) /\
    EeFootprintPad.center_y p' = convert_to_mm (EeFootprintPad.center_y p) /\
    EeFootprintPad.width p' = convert_to_mm (EeFootprintPad.width p) /\
    EeFootprintPad.height p' = convert_to_mm (EeFootprintPad.height p) /\
    EeFootprintPad.hole_radius p' = convert_to_mm (EeFootprintPad.hole_radius p) /\
    EeFootprintPad.hole_length p' = convert_to_mm (EeFootprintPad.hole_length p) /\
    EeFootprintPad.shape p' = EeFootprintPad.shape p /\
    EeFootprintPad.layer_id p' = EeFootprintPad.layer_id p /\
    EeFootprintPad.net p' = EeFootprintPad.net p /\
    EeFootprintPad.number p' = EeFootprintPad.number p /\
    EeFootprintPad.points p' = EeFootprintPad.points p /\
    EeFootprintPad.rotation p' = EeFootprintPad.rotation p /\
    EeFootprintPad.id p' = EeFootprintPad.id p /\
    EeFootprintPad.hole_point p' = EeFootprintPad.hole_point p /\
    EeFootprintPad.is_plated p' = EeFootprintPad.is_plated p /\
    EeFootprintPad.is_locked p' = EeFootprintPad.is_locked p.
Proof.
  intros Hl. exists (EeFootprintPad.convert_to_mm p).
  split; [ cbn [call_convert_to_mm]; rewrite Hl; reflexivity | ].
  repeat split.
Qed.

(** The scenario: the pad with center (100, 100), size 10 x 10 and no hole
    becomes the pad with center (25.4, 25.4), size 2.54 x 2.54. *)
Lemma pad_convert_to_mm_scenario :
  ({[ 7%positive := OEeFootprintPad scenario_pad ]} : gmap loc object)
    !! 7%positive = Some (OEeFootprintPad scenario_pad) /\
  call_convert_to_mm 1 7%positive {[ 7%positive := OEeFootprintPad scenario_pad ]}
    = Ok (<[7%positive := OEeFootprintPad scenario_pad_mm]>
            {[ 7%positive := OEeFootprintPad scenario_pad ]}).
Proof.
  assert (Hl : ({[ 7%positive := OEeFootprintPad scenario_pad ]} : gmap loc object)
                 !! 7%positive = Some (OEeFootprintPad scenario_pad))
    by apply lookup_singleton_eq.
  split; [ exact Hl | ].
  destruct (pad_convert_to_mm_six_fields 0 _ _ _ Hl)
    as (p' & Hcall & Hcx & Hcy & Hw & Hh & Hr & Hhl & Hrest).
  rewrite Hcall. destruct p'. cbn in Hcx, Hcy, Hw, Hh, Hr, Hhl, Hrest.
  destruct Hrest as (-> & -> & -> & -> & -> & -> & -> & -> & -> & ->).
  subst. reflexivity.
Defined.

(** C3, as the code has it.  When a placement holds two different
    [Ee3dModelBase] objects as its translation and as its rotation, a call
    of [convert_to_mm] on the placement returns, and writes the
    translation only: its [x] and [y] went through the scalar converter,
    which gives the product [(x * 10) * 0.0254]; its [z] is as before, and
    the rotation, as every other object, is unchanged. *)
Theorem model_3d_convert_to_mm_translation_xy
    (depth : nat) (l : loc) (h : gmap loc object) (m : Ee3dModel.t)
    (t r : Ee3dModelBase.t) :
  h !! l = Some (OEe3dModel m) ->
  h !! Ee3dModel.translation m = Some (OEe3dModelBase t) ->
  h !! Ee3dModel.rotation m = Some (OEe3dModelBase r) ->
  Ee3dModel.translation m <> Ee3dModel.rotation m ->
  exists h' : gmap loc object,
    call_convert_to_mm (S (S depth)) l h = Ok h' /\
    h' !! Ee3dModel.translation m =
      Some (OEe3dModelBase
              {| Ee3dModelBase.x := convert_to_mm (Ee3dModelBase.x t);
                 Ee3dModelBase.y := convert_to_mm (Ee3dModelBase.y t);
                 Ee3dModelBase.z := Ee3dModelBase.z t |}) /\
    h' !! Ee3dModel.rotation m = Some (OEe3dModelBase r) /\
    (forall l' : loc, l' <> Ee3dModel.translation m -> h' !! l' = h !! l').
Proof.
  intros Hl Ht Hr Hne.
  exists (<[Ee3dModel.translation m :=
            OEe3dModelBase (Ee3dModelBase.convert_to_mm t)]> h).
  split.
  - cbn [call_convert_to_mm]. rewrite Hl, Ht. reflexivity.
  - split; [ apply lookup_insert_eq | ].
    split.
    + rewrite lookup_insert_ne by exact Hne. exact Hr.
    + intros l' Hl'. apply lookup_insert_ne. congruence.
Qed.

(** The scenario: translation (10, 20, 30) becomes (2.54, 5.08, 30), and
    the rotation (0, 0, 90) stays. *)
Lemma model_3d_convert_to_mm_scenario :
  exists h' : gmap loc object,
    call_convert_to_mm 2 1%positive scenario_heap = Ok h' /\
    h' !! 2%positive = Some (OEe3dModelBase (Ee3dModelBase.Build 2.54 5.08 30)) /\
    h' !! 3%positive = Some (OEe3dModelBase (Ee3dModelBase.Build 0 0 90)).
Proof.
  destruct (model_3d_convert_to_mm_translation_xy 0 1%positive scenario_heap
              scenario_model (Ee3dModelBase.Build 10 20 30)
              (Ee3dModelBase.Build 0 0 90))
    as (h' & Hcall & Ht & Hr & _).
  - reflexivity.
  - reflexivity.
  - reflexivity.
  - discriminate.
  - exists h'. split; [ exact Hcall | ]. split; [ exact Ht | exact Hr ].
Defined.

(** C2 fails on a pad at x = 19: the call leaves [center_x] at [4.826],
    which is not [19 * 0.254]. *)
Lemma pad_convert_to_mm_19_differs :
  exists p' : EeFootprintPad.t,
    call_convert_to_mm 1 7%positive {[ 7%positive := OEeFootprintPad pad_at_19 ]}
      = Ok (<[7%positive := OEeFootprintPad p']>
              {[ 7%positive := OEeFootprintPad pad_at_19 ]}) /\
    EeFootprintPad.center_x p' = 4.826%float /\
    (EeFootprintPad.center_x pad_at_19 * 0.254)%float
      = 4.8260000000000005%float /\
    PrimFloat.eqb (EeFootprintPad.center_x p')
      (EeFootprintPad.center_x pad_at_19 * 0.254) = false.
Proof.
  exists (EeFootprintPad.convert_to_mm pad_at_19).
  repeat split; vm_compute; reflexivity.
Qed.

(** C3 fails in two ways.  On a placement that holds one vector as its
    translation and as its rotation, the rotation, (10, 20, 30) before
    the call, is (2.54, 5.08, 30) after it.  On a placement whose
    translation is at x = 19, the call leaves [x] at [4.826], which is
    not [19 * 0.254]. *)
Lemma model_3d_convert_to_mm_differs :
  shared_vector_heap !! Ee3dModel.rotation shared_vector_model
    = Some (OEe3dModelBase (Ee3dModelBase.Build 10 20 30)) /\
  (exists h' : gmap loc object,
     call_convert_to_mm 2 1%positive shared_vector_heap = Ok h' /\
     h' !! Ee3dModel.rotation shared_vector_model
       = Some (OEe3dModelBase (Ee3dModelBase.Build 2.54 5.08 30))) /\
  (exists (h' : gmap loc object) (t' : Ee3dModelBase.t),
     call_convert_to_mm 2 1%positive translation_19_heap = Ok h' /\
     h' !! Ee3dModel.translation scenario_model = Some (OEe3dModelBase t') /\
     Ee3dModelBase.x t' = 4.826%float /\
     PrimFloat.eqb (Ee3dModelBase.x t') (19 * 0.254) = false).
Proof.
  split; [ reflexivity | ]. split.
  - eexists. split; reflexivity.
  - eexists. exists (Ee3dModelBase.Build 4.826 5.08 30).
    split; [ reflexivity | ]. repeat split.
Qed.

(** ** The coercion rules *)

(** C4, as the code has it.  On the [is_displayed] field of the four pin
    classes the registered rule returns [True] on ["show"] and any other
    raw value as it is.  On the [is_displayed] field of the footprint text
    the marker is the empty string: the rule returns [True] on [""] and
    any other raw value, ["show"] included, as it is. *)
Theorem is_displayed_rules {py : Builtins} (v : value) :
  apply_validators (pre_validators EeSymbolPinSettings.validators "is_displayed") v
    = Ok (if eq_str v "show" then VBool true else v) /\
  apply_validators (pre_validators EeSymbolPinName.validators "is_displayed") v
    = Ok (if eq_str v "show" then VBool true else v) /\
  apply_validators (pre_validators EeSymbolPinDotBis.validators "is_displayed") v
    = Ok (if eq_str v "show" then VBool true else v) /\
  apply_validators (pre_validators EeSymbolPinClock.validators "is_displayed") v
    = Ok (if eq_str v "show" then VBool true else v) /\
  apply_validators (pre_validators EeFootprintText.validators "is_displayed") v
    = Ok (if eq_str v "" then VBool true else v).
Proof. repeat split. Qed.

(** C4 fails on the footprint text: its rule turns the empty string into
    [True] and passes ["show"] through. *)
Lemma footprint_text_displayed_marker_is_empty :
  apply_validators (pre_validators EeFootprintText.validators "is_displayed")
    (VStr "") = Ok (VBool true) /\
  apply_validators (pre_validators EeFootprintText.validators "is_displayed")
    (VStr "show") = Ok (VStr "show") /\
  EeFootprintText.empty_str_display (VStr "") = Ok (VBool true) /\
  EeFootprintText.empty_str_display (VStr "show") = Ok (VStr "show").
Proof. repeat split. Qed.

(** ** What a call of [convert_to_mm] can write *)

(** A call that returns has rewritten one object, of a class whose method
    assigns to [self], by an object of such a class. *)
Lemma call_convert_to_mm_writes (depth : nat) :
  forall (l : loc) (h h' : gmap loc object),
    call_convert_to_mm depth l h = Ok h' ->
    exists (w : loc) (o o' : object),
      h !! w = Some o /\ assigns_to_self o = true /\
      assigns_to_self o' = true /\ h' = <[w := o']> h.
Proof.
  induction depth as [| depth IH]; intros l h h' Hcall; [ discriminate | ].
  cbn [call_convert_to_mm] in Hcall.
  destruct (h !! l) as [o |] eqn:Hl; [ | discriminate ].
  destruct o; try discriminate;
    try (injection Hcall as <-; eexists l, _, _; repeat split; eauto; fail).
  eapply IH; eauto.
Qed.

Lemma call_convert_to_mm_frame (depth : nat) (l w : loc)
    (h h' : gmap loc object) (o : object) :
  call_convert_to_mm depth l h = Ok h' ->
  h !! w = Some o -> assigns_to_self o = false ->
  h' !! w = Some o.
Proof.
  intros Hcall Hw Ho.
  destruct (call_convert_to_mm_writes _ _ _ _ Hcall)
    as (w' & o1 & o2 & Hw' & Ho1 & _ & ->).
  destruct (decide (w' = w)) as [-> | Hne].
  - congruence.
  - rewrite lookup_insert_ne by exact Hne. exact Hw.
Qed.

Lemma steps_frame (h h' : gmap loc object) (w : loc) (o : object) :
  rtc step h h' ->
  h !! w = Some o -> assigns_to_self o = false ->
  h' !! w = Some o.
Proof.
  intros Hsteps. induction Hsteps as [h | h h1 h2 Hstep _ IH]; intros Hw Ho.
  - exact Hw.
  - destruct Hstep as (depth & l & Hcall).
    apply IH; [ | exact Ho ]. eapply call_convert_to_mm_frame; eauto.
Qed.

Lemma call_convert_to_mm_no_method (depth : nat) (l : loc)
    (h : gmap loc object) (o : object) :
  h !! l = Some o -> symbol_family o = true \/ is_arc o = true ->
  call_convert_to_mm (S depth) l h = Raise AttributeError.
Proof.
  intros Hl Ho. cbn [call_convert_to_mm]. rewrite Hl.
  destruct o; try reflexivity; destruct Ho; discriminate.
Qed.

Lemma symbol_family_not_assigned (o : object) :
  symbol_family o = true -> assigns_to_self o = false.
Proof. destruct o; (reflexivity || discriminate). Qed.

(** C9.  An object of a symbol-family class, the bounding box of a symbol
    among them, is the same after any sequence of calls of
    [convert_to_mm] on any objects, and it cannot itself be converted: its
    class has no such method, the call raises. *)
Theorem symbol_family_stays_native
    (h h' : gmap loc object) (l : loc) (o : object) :
  h !! l = Some o -> symbol_family o = true ->
  rtc step h h' ->
  h' !! l = Some o /\
  (forall depth : nat,
     call_convert_to_mm (S depth) l h' = Raise AttributeError).
Proof.
  intros Hl Ho Hsteps.
  assert (Hl' : h' !! l = Some o).
  { eapply steps_frame; eauto using symbol_family_not_assigned. }
  split; [ exact Hl' | ].
  intros depth. eapply call_convert_to_mm_no_method; eauto.
Qed.

Lemma mixed_heap_pad_step :
  step mixed_heap
    (<[2%positive := OEeFootprintPad scenario_pad_mm]> mixed_heap).
Proof. exists 1%nat, 2%positive. reflexivity. Qed.

(** The bounding box (400, 300) of a symbol is as it was after the pad of
    the footprint was converted. *)
Lemma symbol_bbox_stays_native :
  (<[2%positive := OEeFootprintPad scenario_pad_mm]> mixed_heap) !! 1%positive
    = Some (OEeSymbolBbox (EeSymbolBbox.Build 400 300)) /\
  (forall depth : nat,
     call_convert_to_mm (S depth) 1%positive
       (<[2%positive := OEeFootprintPad scenario_pad_mm]> mixed_heap)
     = Raise AttributeError).
Proof.
  apply (symbol_family_stays_native mixed_heap).
  - reflexivity.
  - reflexivity.
  - apply rtc_once. exact mixed_heap_pad_step.
Defined.

(** C10.  The class of footprint arcs has no [convert_to_mm]: the call
    raises on an arc, while it returns on an object of every other
    footprint class with a length; and an arc, its [stroke_width] with it,
    is the same after any sequence of calls of [convert_to_mm]. *)
Theorem footprint_arc_never_converted
    (h h' : gmap loc object) (l : loc) (a : EeFootprintArc.t) :
  h !! l = Some (OEeFootprintArc a) ->
  rtc step h h' ->
  h' !! l = Some (OEeFootprintArc a) /\
  (forall depth : nat,
     call_convert_to_mm (S depth) l h' = Raise AttributeError) /\
  (forall (depth : nat) (l2 : loc) (o : object),
     h' !! l2 = Some o -> footprint_with_lengths o = true ->
     is_arc o = false ->
     is_ok (call_convert_to_mm (S depth) l2 h')).
Proof.
  intros Hl Hsteps.
  assert (Hl' : h' !! l = Some (OEeFootprintArc a)).
  { eapply steps_frame; eauto. }
  split; [ exact Hl' | ]. split.
  - intros depth. eapply call_convert_to_mm_no_method; eauto.
  - intros depth l2 o Hl2 Hlen Harc. cbn [call_convert_to_mm]. rewrite Hl2.
    destruct o; try discriminate; eexists; reflexivity.
Qed.

(** The arc of stroke width 1 is as it was after the pad next to it was
    converted. *)
Lemma footprint_arc_stays_native :
  (<[2%positive := OEeFootprintPad scenario_pad_mm]> mixed_heap) !! 3%positive
    = Some (OEeFootprintArc scenario_arc) /\
  call_convert_to_mm 1 3%positive
    (<[2%positive := OEeFootprintPad scenario_pad_mm]> mixed_heap)
    = Raise AttributeError /\
  is_ok (call_convert_to_mm 1 2%positive
           (<[2%positive := OEeFootprintPad scenario_pad_mm]> mixed_heap)).
Proof.
  destruct (footprint_arc_never_converted mixed_heap
              (<[2%positive := OEeFootprintPad scenario_pad_mm]> mixed_heap)
              3%positive scenario_arc)
    as (Harc & Hraise & Hothers).
  - reflexivity.
  - apply rtc_once. exact mixed_heap_pad_step.
  - split; [ exact Harc | ]. split; [ apply Hraise | ].
    apply (Hothers 0%nat 2%positive (OEeFootprintPad scenario_pad_mm));
      reflexivity.
Defined.

(** ** Construction *)

Lemma raises_collect_l {A B : Type} (rf : result (A -> B)) (ra : result A) :
  raises rf -> raises (rf <*> ra).
Proof.
  intros [e ->]. destruct e, ra as [a | []]; eexists; reflexivity.
Qed.

Lemma raises_collect_r {A B : Type} (rf : result (A -> B)) (ra : result A) :
  raises ra -> raises (rf <*> ra).
Proof.
  intros [e ->]. destruct rf as [f | []]; eexists; reflexivity.
Qed.

Lemma collect_ok {A B : Type} (rf : result (A -> B)) (ra : result A) (b : B) :
  rf <*> ra = Ok b -> exists f a, rf = Ok f /\ ra = Ok a /\ b = f a.
Proof.
  destruct rf as [f | []], ra as [a | e]; try discriminate.
  intros [= <-]. eauto.
Qed.

Lemma required_missing {A : Type} (type_validator : value -> result A)
    (vs : list validator) (raw : gmap string value) (name : string) :
  raw !! name = None ->
  required type_validator vs raw name = Raise ValidationError.
Proof. intros Hraw. unfold required. rewrite Hraw. reflexivity. Qed.

(** Walk back from the last field of a constructor to the one that [Heq]
    rewrites into a raise. *)
Ltac raises_at Heq :=
  repeat first
    [ apply raises_collect_r; rewrite Heq; eexists; reflexivity
    | apply raises_collect_l ].

(** Resolve which validators are registered for a field. *)
Ltac eval_pre_validators :=
  repeat match goal with
  | |- context [pre_validators ?vs ?n] =>
      let r := eval vm_compute in (pre_validators vs n) in
      change (pre_validators vs n) with r
  end.

Lemma rectangle_wildcard (name : string) :
  pre_validators EeSymbolRectangle.validators name = EeSymbolRectangle.validators.
Proof.
  unfold pre_validators, EeSymbolRectangle.validators.
  rewrite filter_cons_True; [ reflexivity | ].
  right. cbn. apply list_elem_of_here.
Qed.

Lemma rectangle_required_falsy {A : Type} (type_validator : value -> result A)
    (raw : gmap string value) (name : string) (v : value) :
  raw !! name = Some v -> truthy v = false ->
  required type_validator EeSymbolRectangle.validators raw name
    = Raise ValidationError.
Proof.
  intros Hraw Hv. unfold required, validate. rewrite Hraw, rectangle_wildcard.
  cbn. unfold py_or. rewrite Hv. reflexivity.
Qed.

(** C5, as the code has it.  The wildcard rule is registered for every
    field name: before the type of the field is looked at, a raw value
    that is false in Python, the empty string among them, is replaced by
    [None], and the rule never raises.  The entity takes [None] for [rx]
    and [ry], its two optional fields, and holds it.  On each of the ten
    other fields, numeric ones included, [None] is refused and the
    construction raises. *)
Theorem rectangle_wildcard_rule {py : Builtins} :
  (forall (name : string) (v : value),
     apply_validators (pre_validators EeSymbolRectangle.validators name) v
       = Ok (if truthy v then v else VNone)) /\
  (forall name : string,
     apply_validators (pre_validators EeSymbolRectangle.validators name)
       (VStr "") = Ok VNone) /\
  (forall (raw : gmap string value) (name : string),
     raw !! name = Some (VStr "") ->
     optional float_validator EeSymbolRectangle.validators raw name = Ok None) /\
  (forall (raw : gmap string value) (e : EeSymbolRectangle.t),
     raw !! "rx"%string = Some (VStr "") ->
     raw !! "ry"%string = Some (VStr "") ->
     EeSymbolRectangle.parse_obj raw = Ok e ->
     EeSymbolRectangle.rx e = None /\ EeSymbolRectangle.ry e = None) /\
  EeSymbolRectangle.parse_obj (raw_rectangle (VStr "") (VStr "") (VFloat 10))
    = Ok {| EeSymbolRectangle.pos_x := 395;
            EeSymbolRectangle.pos_y := 290;
            EeSymbolRectangle.rx := None;
            EeSymbolRectangle.ry := None;
            EeSymbolRectangle.width := 10;
            EeSymbolRectangle.height := 20;
            EeSymbolRectangle.stroke_color := "#880000";
            EeSymbolRectangle.stroke_width := "1";
            EeSymbolRectangle.stroke_style := "0";
            EeSymbolRectangle.fill_color := "none";
            EeSymbolRectangle.id := "gge7";
            EeSymbolRectangle.is_locked := true |} /\
  (forall (raw : gmap string value) (name : string),
     name ∈ EeSymbolRectangle.fields ->
     name <> "rx"%string -> name <> "ry"%string ->
     raw !! name = Some (VStr "") ->
     raises (EeSymbolRectangle.parse_obj raw)).
Proof.
  split; [ | split; [ | split; [ | split; [ | split ] ] ] ].
  - intros name v. rewrite rectangle_wildcard. reflexivity.
  - intros name. rewrite rectangle_wildcard. reflexivity.
  - intros raw name Hraw. unfold optional.
    rewrite Hraw, rectangle_wildcard. reflexivity.
  - intros raw e Hrx Hry Hc. unfold EeSymbolRectangle.parse_obj in Hc.
    repeat match type of Hc with
    | _ <*> _ = Ok _ =>
        let f := fresh "f" in let a := fresh "a" in let Ha := fresh "Ha" in
        apply collect_ok in Hc as (f & a & Hc & Ha & ->)
    end.
    injection Hc as <-.
    repeat match goal with
    | H : optional _ _ raw _ = Ok _ |- _ =>
        unfold optional in H; rewrite ?Hrx, ?Hry, rectangle_wildcard in H;
        injection H as <-
    end.
    split; reflexivity.
  - reflexivity.
  - intros raw name Hin Hrx Hry Hraw.
    assert (Heq : forall (A : Type) (tv : value -> result A),
               required tv EeSymbolRectangle.validators raw name
                 = Raise ValidationError).
    { intros A tv. eapply rectangle_required_falsy; eauto. }
    unfold EeSymbolRectangle.fields in Hin.
    repeat (apply elem_of_cons in Hin as [-> | Hin]);
      try apply elem_of_nil in Hin; try contradiction;
      unfold EeSymbolRectangle.parse_obj; raises_at Heq.
Qed.

(** A rectangle whose width is the empty string: the rule is total, the
    construction raises. *)
Lemma rectangle_wildcard_rule_on_width :
  apply_validators (pre_validators EeSymbolRectangle.validators "width")
    (VStr "") = Ok VNone /\
  raises (EeSymbolRectangle.parse_obj (py := in_type_only)
            (raw_rectangle (VFloat 2) (VFloat 2) (VStr ""))).
Proof.
  destruct (rectangle_wildcard_rule (py := in_type_only))
    as (_ & Hrule & _ & _ & _ & Hraises).
  split; [ apply Hrule | ].
  apply (Hraises _ "width"%string).
  - unfold EeSymbolRectangle.fields. do 4 apply list_elem_of_further.
    apply list_elem_of_here.
  - discriminate.
  - discriminate.
  - reflexivity.
Defined.

(** C5 fails on the width: the rectangle whose width is the empty string
    cannot be constructed. *)
Lemma rectangle_empty_width_refused :
  EeSymbolRectangle.parse_obj (py := in_type_only)
    (raw_rectangle (VFloat 2) (VFloat 2) (VStr ""))
  = Raise ValidationError.
Proof. reflexivity. Qed.

Lemma pin_settings_parse_obj_in_type {py : Builtins} (raw : gmap string value)
    (displayed locked : bool) (type number id : string) (x y : float)
    (rotation : Z) :
  raw !! "is_displayed"%string = Some (VBool displayed) ->
  raw !! "type"%string = Some (VStr type) ->
  raw !! "spice_pin_number"%string = Some (VStr number) ->
  raw !! "pos_x"%string = Some (VFloat x) ->
  raw !! "pos_y"%string = Some (VFloat y) ->
  raw !! "rotation"%string = Some (VInt rotation) ->
  rotation <> 0 ->
  raw !! "id"%string = Some (VStr id) ->
  raw !! "is_locked"%string = Some (VBool locked) ->
  EeSymbolPinSettings.parse_obj raw
    = Ok {| EeSymbolPinSettings.is_displayed := displayed;
            EeSymbolPinSettings.type := type;
            EeSymbolPinSettings.spice_pin_number := number;
            EeSymbolPinSettings.pos_x := x;
            EeSymbolPinSettings.pos_y := y;
            EeSymbolPinSettings.rotation := rotation;
            EeSymbolPinSettings.id := id;
            EeSymbolPinSettings.is_locked := locked |}.
Proof.
  intros Hd Ht Hn Hx Hy Hr Hr0 Hi Hl.
  unfold EeSymbolPinSettings.parse_obj, required.
  rewrite Hd, Ht, Hn, Hx, Hy, Hr, Hi, Hl.
  destruct rotation; [ congruence | | ]; destruct displayed, locked;
    reflexivity.
Qed.

Lemma pin_settings_parse_obj_missing {py : Builtins}
    (raw : gmap string value) (name : string) :
  name ∈ EeSymbolPinSettings.fields -> raw !! name = None ->
  raises (EeSymbolPinSettings.parse_obj raw).
Proof.
  intros Hin Hraw.
  assert (Heq : forall (A : Type) (tv : value -> result A),
             required tv EeSymbolPinSettings.validators raw name
               = Raise ValidationError)
    by (intros A tv; apply required_missing; exact Hraw).
  unfold EeSymbolPinSettings.fields in Hin.
  repeat (apply elem_of_cons in Hin as [-> | Hin]);
    try apply elem_of_nil in Hin; try contradiction;
    unfold EeSymbolPinSettings.parse_obj; raises_at Heq.
Qed.

Lemma pad_parse_obj_missing {py : Builtins}
    (raw : gmap string value) (name : string) :
  name ∈ EeFootprintPad.fields -> raw !! name = None ->
  raises (EeFootprintPad.parse_obj raw).
Proof.
  intros Hin Hraw.
  assert (Heq : forall (A : Type) (tv : value -> result A),
             required tv EeFootprintPad.validators raw name
               = Raise ValidationError)
    by (intros A tv; apply required_missing; exact Hraw).
  unfold EeFootprintPad.fields in Hin.
  repeat (apply elem_of_cons in Hin as [-> | Hin]);
    try apply elem_of_nil in Hin; try contradiction;
    unfold EeFootprintPad.parse_obj; raises_at Heq.
Qed.

(** [rotation or 0.0] turns a zero rotation, of either sign, into 0.0. *)
Lemma pad_parse_obj_in_type {py : Builtins} (raw : gmap string value)
    (p : EeFootprintPad.t) :
  raw !! "shape"%string = Some (VStr (EeFootprintPad.shape p)) ->
  raw !! "center_x"%string = Some (VFloat (EeFootprintPad.center_x p)) ->
  raw !! "center_y"%string = Some (VFloat (EeFootprintPad.center_y p)) ->
  raw !! "width"%string = Some (VFloat (EeFootprintPad.width p)) ->
  raw !! "height"%string = Some (VFloat (EeFootprintPad.height p)) ->
  raw !! "layer_id"%string = Some (VInt (EeFootprintPad.layer_id p)) ->
  raw !! "net"%string = Some (VStr (EeFootprintPad.net p)) ->
  raw !! "number"%string = Some (VStr (EeFootprintPad.number p)) ->
  raw !! "hole_radius"%string = Some (VFloat (EeFootprintPad.hole_radius p)) ->
  raw !! "points"%string = Some (VStr (EeFootprintPad.points p)) ->
  raw !! "rotation"%string = Some (VFloat (EeFootprintPad.rotation p)) ->
  raw !! "id"%string = Some (VStr (EeFootprintPad.id p)) ->
  raw !! "hole_length"%string = Some (VFloat (EeFootprintPad.hole_length p)) ->
  raw !! "hole_point"%string = Some (VStr (EeFootprintPad.hole_point p)) ->
  raw !! "is_plated"%string = Some (VBool (EeFootprintPad.is_plated p)) ->
  raw !! "is_locked"%string = Some (VBool (EeFootprintPad.is_locked p)) ->
  EeFootprintPad.parse_obj raw
    = Ok {| EeFootprintPad.shape := EeFootprintPad.shape p;
            EeFootprintPad.center_x := EeFootprintPad.center_x p;
            EeFootprintPad.center_y := EeFootprintPad.center_y p;
            EeFootprintPad.width := EeFootprintPad.width p;
            EeFootprintPad.height := EeFootprintPad.height p;
            EeFootprintPad.layer_id := EeFootprintPad.layer_id p;
            EeFootprintPad.net := EeFootprintPad.net p;
            EeFootprintPad.number := EeFootprintPad.number p;
            EeFootprintPad.hole_radius := EeFootprintPad.hole_radius p;
            EeFootprintPad.points := EeFootprintPad.points p;
            EeFootprintPad.rotation :=
              if PrimFloat.eqb (EeFootprintPad.rotation p) 0
              then 0%float else EeFootprintPad.rotation p;
            EeFootprintPad.id := EeFootprintPad.id p;
            EeFootprintPad.hole_length := EeFootprintPad.hole_length p;
            EeFootprintPad.hole_point := EeFootprintPad.hole_point p;
            EeFootprintPad.is_plated := EeFootprintPad.is_plated p;
            EeFootprintPad.is_locked := EeFootprintPad.is_locked p |}.
Proof.
  intros H1 H2 H3 H4 H5 H6 H7 H8 H9 H10 H11 H12 H13 H14 H15 H16.
  unfold EeFootprintPad.parse_obj, required.
  rewrite H1, H2, H3, H4, H5, H6, H7, H8, H9, H10, H11, H12, H13, H14, H15, H16.
  unfold validate. eval_pre_validators.
  destruct p as [? ? ? ? ? ? ? ? ? ? rotation ? ? ? plated locked].
  cbn. unfold py_or; cbn.
  destruct (PrimFloat.eqb rotation 0); destruct plated, locked; reflexivity.
Qed.




Lemma rules_of_pin_settings_and_pad_return (r : validator) (v : value) :
  r ∈ EeSymbolPinSettings.validators ++ EeFootprintPad.validators ->
  is_ok (func r v).
Proof.
  intros Hin. cbn in Hin.
  repeat (apply elem_of_cons in Hin as [-> | Hin]);
    try apply elem_of_nil in Hin; try contradiction;
    eexists; reflexivity.
Qed.

(** C7, as the code has it.  The coercion rules of the pin settings and of
    the pad return on every raw value.  The construction can raise: every
    field of the two classes is required, so a raw record that lacks one
    is refused, and no default stands in for it; the construction returns
    when every field is supplied with a value of its declared type.  A
    default is kept where the class declares one: the three coordinates
    of [Ee3dModelBase] are 0.0 when the raw record is empty. *)
Theorem construction_requires_every_field {py : Builtins} :
  (forall (r : validator) (v : value),
     r ∈ EeSymbolPinSettings.validators ++ EeFootprintPad.validators ->
     is_ok (func r v)) /\
  (forall (raw : gmap string value) (name : string),
     name ∈ EeSymbolPinSettings.fields -> raw !! name = None ->
     raises (EeSymbolPinSettings.parse_obj raw)) /\
  (forall (raw : gmap string value) (name : string),
     name ∈ EeFootprintPad.fields -> raw !! name = None ->
     raises (EeFootprintPad.parse_obj raw)) /\
  (forall (raw : gmap string value) (displayed locked : bool)
          (type number id : string) (x y : float) (rotation : Z),
     raw !! "is_displayed"%string = Some (VBool displayed) ->
     raw !! "type"%string = Some (VStr type) ->
     raw !! "spice_pin_number"%string = Some (VStr number) ->
     raw !! "pos_x"%string = Some (VFloat x) ->
     raw !! "pos_y"%string = Some (VFloat y) ->
     raw !! "rotation"%string = Some (VInt rotation) ->
     rotation <> 0 ->
     raw !! "id"%string = Some (VStr id) ->
     raw !! "is_locked"%string = Some (VBool locked) ->
     is_ok (EeSymbolPinSettings.parse_obj raw)) /\
  (forall (raw : gmap string value) (p : EeFootprintPad.t),
     raw !! "shape"%string = Some (VStr (EeFootprintPad.shape p)) ->
     raw !! "center_x"%string = Some (VFloat (EeFootprintPad.center_x p)) ->
     raw !! "center_y"%string = Some (VFloat (EeFootprintPad.center_y p)) ->
     raw !! "width"%string = Some (VFloat (EeFootprintPad.width p)) ->
     raw !! "height"%string = Some (VFloat (EeFootprintPad.height p)) ->
     raw !! "layer_id"%string = Some (VInt (EeFootprintPad.layer_id p)) ->
     raw !! "net"%string = Some (VStr (EeFootprintPad.net p)) ->
     raw !! "number"%string = Some (VStr (EeFootprintPad.number p)) ->
     raw !! "hole_radius"%string = Some (VFloat (EeFootprintPad.hole_radius p)) ->
     raw !! "points"%string = Some (VStr (EeFootprintPad.points p)) ->
     raw !! "rotation"%string = Some (VFloat (EeFootprintPad.rotation p)) ->
     raw !! "id"%string = Some (VStr (EeFootprintPad.id p)) ->
     raw !! "hole_length"%string = Some (VFloat (EeFootprintPad.hole_length p)) ->
     raw !! "hole_point"%string = Some (VStr (EeFootprintPad.hole_point p)) ->
     raw !! "is_plated"%string = Some (VBool (EeFootprintPad.is_plated p)) ->
     raw !! "is_locked"%string = Some (VBool (EeFootprintPad.is_locked p)) ->
     is_ok (EeFootprintPad.parse_obj raw)) /\
  Ee3dModelBase.parse_obj ∅ = Ok (Ee3dModelBase.Build 0 0 0).
Proof.
  split; [ | split; [ | split; [ | split; [ | split ] ] ] ].
  - apply rules_of_pin_settings_and_pad_return.
  - apply pin_settings_parse_obj_missing.
  - apply pad_parse_obj_missing.
  - intros. eexists. eapply pin_settings_parse_obj_in_type; eauto.
  - intros. eexists. eapply pad_parse_obj_in_type; eauto.
  - reflexivity.
Qed.

(** A raw record without [id] is refused; the complete one is accepted. *)
Lemma construction_requires_id :
  raises (EeSymbolPinSettings.parse_obj (py := in_type_only)
            (delete "id"%string (raw_pin_settings "0"))) /\
  is_ok (EeSymbolPinSettings.parse_obj (py := in_type_only)
           (<["is_displayed"%string := VBool true]> (raw_pin_settings "0"))).
Proof.
  destruct (construction_requires_every_field (py := in_type_only))
    as (_ & Hmissing & _ & Hok & _).
  split.
  - apply (Hmissing _ "id"%string).
    + unfold EeSymbolPinSettings.fields. do 6 apply list_elem_of_further.
      apply list_elem_of_here.
    + reflexivity.
  - apply (Hok _ true false "0"%string "1"%string "gge12"%string
             390%float 300%float 180);
      (reflexivity || discriminate).
Defined.

(** C7 fails on the empty raw record, and on a complete one whose
    [is_displayed] is the empty string: the rule passes [""] through and
    the field refuses it. *)
Lemma construction_raises :
  EeSymbolPinSettings.parse_obj (py := in_type_only) ∅
    = Raise ValidationError /\
  EeFootprintPad.parse_obj (py := in_type_only) ∅ = Raise ValidationError /\
  EeSymbolPinSettings.parse_obj (py := in_type_only)
    (<["is_displayed"%string := VStr ""]> (raw_pin_settings "0"))
    = Raise ValidationError.
Proof. repeat split. Qed.

(** ** The font size of a pin label *)

Lemma prefix_cons (a b : ascii) (s1 s2 : string) :
  String.prefix (String a s1) (String b s2)
    = if ascii_dec a b then String.prefix s1 s2 else false.
Proof. reflexivity. Qed.

Lemma prefix_pt_app (c : ascii) (s : string) :
  String.prefix "pt" (String c s) = false ->
  String.prefix "pt" (String c (s ++ "pt")) = false.
Proof.
  rewrite !prefix_cons. destruct (ascii_dec "p" c) as [_ | _]; [ | reflexivity ].
  destruct s as [| b s].
  - intros _. reflexivity.
  - change (String b s ++ "pt")%string with (String b (s ++ "pt")).
    rewrite !prefix_cons.
    destruct (ascii_dec "t" b); [ | reflexivity ].
    intros Hp. destruct s; discriminate Hp.
Qed.

Lemma contains_pt_suffix (s : string) :
  contains "pt" (s ++ "pt") = true.
Proof.
  induction s as [| c s IH].
  - reflexivity.
  - change (String c s ++ "pt")%string with (String c (s ++ "pt")).
    cbn [contains]. rewrite IH. apply orb_true_r.
Qed.

(** Stripping the suffix of [s + "pt"] gives [s] back when [s] holds no
    other ["pt"]. *)
Lemma replace_pt_suffix (s : string) :
  contains "pt" s = false ->
  replace "pt" "" (s ++ "pt") = s.
Proof.
  unfold replace. induction s as [| c s IH]; intros Hs.
  - reflexivity.
  - cbn [contains] in Hs. apply orb_false_elim in Hs as [Hp Hs].
    change (String c s ++ "pt")%string with (String c (s ++ "pt")).
    cbn [replace_from]. rewrite (prefix_pt_app _ _ Hp), (IH Hs). reflexivity.
Qed.

(** C8, as the code has it.  The rule is registered for [font_size].  On
    a string that holds ["pt"] it returns [float] of the string without
    its occurrences of ["pt"], so [float(s)] on [s + "pt"] and
    [float("10")] on ["10pt"]; it raises if [float] does.  Otherwise a raw
    value that is false in Python, the empty string, [None], [False] and
    a numeric zero, becomes 7.0, and any other raw value is returned as
    it is. *)
Theorem pin_name_font_size_rule {py : Builtins} :
  pre_validators EeSymbolPinName.validators "font_size"
    = [ Validator ["font_size"%string] EeSymbolPinName.empty_str_font ] /\
  (forall s : string,
     contains "pt" s = true ->
     EeSymbolPinName.empty_str_font (VStr s)
       = (f ← py_float (VStr (replace "pt" "" s)); Ok (VFloat f))) /\
  (forall s : string,
     contains "pt" s = false ->
     EeSymbolPinName.empty_str_font (VStr (s ++ "pt"))
       = (f ← py_float (VStr s); Ok (VFloat f))) /\
  EeSymbolPinName.empty_str_font (VStr "10pt")
    = (f ← py_float (VStr "10"); Ok (VFloat f)) /\
  EeSymbolPinName.empty_str_font (VStr "") = Ok (VFloat 7) /\
  (forall v : value,
     truthy v = false ->
     EeSymbolPinName.empty_str_font v = Ok (VFloat 7)) /\
  (forall v : value,
     truthy v = true ->
     (forall s : string, v = VStr s -> contains "pt" s = false) ->
     EeSymbolPinName.empty_str_font v = Ok v).
Proof.
  split; [ reflexivity | ].
  split; [ intros s Hs; cbn; rewrite Hs; reflexivity | ].
  split.
  { intros s Hs. cbn. rewrite contains_pt_suffix, (replace_pt_suffix _ Hs).
    reflexivity. }
  split; [ reflexivity | ].
  split; [ reflexivity | ].
  split.
  - intros v Hv. destruct v as [| b | n | f | s];
      try (unfold EeSymbolPinName.empty_str_font, py_or; rewrite Hv;
           reflexivity).
    apply negb_false_iff, String.eqb_eq in Hv as ->. reflexivity.
  - intros v Hv Hs. destruct v as [| b | n | f | s];
      try (unfold EeSymbolPinName.empty_str_font, py_or; rewrite Hv;
           reflexivity).
    unfold EeSymbolPinName.empty_str_font. rewrite (Hs s eq_refl).
    unfold py_or. rewrite Hv. reflexivity.
Qed.

(** The size 12 is returned as it is, and [False] becomes 7.0. *)
Lemma pin_name_font_size_12 :
  EeSymbolPinName.empty_str_font (py := in_type_only) (VInt 12) = Ok (VInt 12) /\
  EeSymbolPinName.empty_str_font (py := in_type_only) (VBool false)
    = Ok (VFloat 7).
Proof.
  destruct (pin_name_font_size_rule (py := in_type_only))
    as (_ & _ & _ & _ & _ & Hfalsy & Htruthy).
  split.
  - apply Htruthy; [ reflexivity | discriminate ].
  - apply Hfalsy. reflexivity.
Defined.

(** C8 fails on a numeric zero: the raw sizes [0] and [0.0] are not passed
    through, they become 7.0; so does [None]. *)
Lemma pin_name_font_size_zero :
  EeSymbolPinName.empty_str_font (py := in_type_only) (VInt 0) = Ok (VFloat 7) /\
  EeSymbolPinName.empty_str_font (py := in_type_only) (VFloat 0) = Ok (VFloat 7) /\
  EeSymbolPinName.empty_str_font (py := in_type_only) VNone = Ok (VFloat 7).
Proof. repeat split. Qed.

(** ** More on the calls of [convert_to_mm] *)

Lemma call_convert_to_mm_writes_class (depth : nat) :
  forall (l : loc) (h h' : gmap loc object),
    call_convert_to_mm depth l h = Ok h' ->
    exists (w : loc) (o o' : object),
      h !! w = Some o /\ class_name o' = class_name o /\ h' = <[w := o']> h.
Proof.
  induction depth as [| depth IH]; intros l h h' Hcall; [ discriminate | ].
  cbn [call_convert_to_mm] in Hcall.
  destruct (h !! l) as [o |] eqn:Hl; [ | discriminate ].
  destruct o; try discriminate;
    try (injection Hcall as <-; eexists l, _, _;
         split; [ exact Hl | split; [ | reflexivity ]; reflexivity ]).
  eapply IH; eauto.
Qed.

(** X1.  A call of [convert_to_mm] that returns neither allocates nor
    frees an object, and leaves every object in its class: the heap has
    the same locations, each holding an object of the class it held. *)
Theorem call_convert_to_mm_keeps_shape
    (depth : nat) (l : loc) (h h' : gmap loc object) :
  call_convert_to_mm depth l h = Ok h' ->
  dom h' = dom h /\
  (forall w : loc, class_name <$> h' !! w = class_name <$> h !! w).
Proof.
  intros Hcall.
  destruct (call_convert_to_mm_writes_class _ _ _ _ Hcall)
    as (w' & o & o' & Hw' & Hclass & ->).
  split.
  - apply dom_insert_lookup_L. rewrite Hw'. eauto.
  - intros w. destruct (decide (w' = w)) as [<- | Hne].
    + rewrite lookup_insert_eq, Hw'. cbn. congruence.
    + rewrite lookup_insert_ne by exact Hne. reflexivity.
Qed.

Lemma call_convert_to_mm_keeps_shape_footprint :
  dom (<[2%positive := OEeFootprintPad scenario_pad_mm]> footprint_heap)
    = dom footprint_heap /\
  (forall w : loc,
     class_name <$>
       (<[2%positive := OEeFootprintPad scenario_pad_mm]> footprint_heap) !! w
     = class_name <$> footprint_heap !! w).
Proof.
  apply (call_convert_to_mm_keeps_shape 1 2%positive). reflexivity.
Defined.

(** X2.  Nothing records that an object was converted: a call that
    returned returns again when it is repeated, whatever the class. *)
Theorem convert_to_mm_can_be_repeated
    (depth : nat) (l : loc) (h h1 : gmap loc object) :
  call_convert_to_mm depth l h = Ok h1 ->
  is_ok (call_convert_to_mm depth l h1).
Proof.
  revert l h h1. induction depth as [| depth IH]; intros l h h1 Hcall;
    [ discriminate | ].
  cbn [call_convert_to_mm] in Hcall |- *.
  destruct (h !! l) as [o |] eqn:Hl; [ | discriminate ].
  destruct o; try discriminate;
    try (injection Hcall as <-; rewrite lookup_insert_eq; eexists;
         reflexivity).
  assert (Hl1 : h1 !! l = Some (OEe3dModel o))
    by (eapply call_convert_to_mm_frame; eauto).
  rewrite Hl1. eapply IH; eauto.
Qed.

Lemma convert_to_mm_can_be_repeated_on_pad :
  is_ok (call_convert_to_mm 1 2%positive
           (<[2%positive := OEeFootprintPad scenario_pad_mm]> footprint_heap)).
Proof.
  apply (convert_to_mm_can_be_repeated 1 2%positive footprint_heap).
  reflexivity.
Defined.

(** X3.  Two calls on a pad convert it twice: after the second call each
    of the six lengths went through the scalar converter two times, and
    the other fields and objects are as before. *)
Theorem pad_convert_to_mm_twice
    (depth : nat) (l : loc) (h : gmap loc object) (p : EeFootprintPad.t) :
  h !! l = Some (OEeFootprintPad p) ->
  exists (h1 h2 : gmap loc object) (p2 : EeFootprintPad.t),
    call_convert_to_mm (S depth) l h = Ok h1 /\
    call_convert_to_mm (S depth) l h1 = Ok h2 /\
    h2 !! l = Some (OEeFootprintPad p2) /\
    EeFootprintPad.center_x p2
      = convert_to_mm (convert_to_mm (EeFootprintPad.center_x p)) /\
    EeFootprintPad.center_y p2
      = convert_to_mm (convert_to_mm (EeFootprintPad.center_y p)) /\
    EeFootprintPad.width p2
      = convert_to_mm (convert_to_mm (EeFootprintPad.width p)) /\
    EeFootprintPad.height p2
      = convert_to_mm (convert_to_mm (EeFootprintPad.height p)) /\
    EeFootprintPad.hole_radius p2
      = convert_to_mm (convert_to_mm (EeFootprintPad.hole_radius p)) /\
    EeFootprintPad.hole_length p2
      = convert_to_mm (convert_to_mm (EeFootprintPad.hole_length p)) /\
    EeFootprintPad.rotation p2 = EeFootprintPad.rotation p /\
    EeFootprintPad.layer_id p2 = EeFootprintPad.layer_id p /\
    (forall w : loc, w <> l -> h2 !! w = h !! w).
Proof.
  intros Hl. do 3 eexists. split; [ | split; [ | split ] ].
  - cbn [call_convert_to_mm]. rewrite Hl. reflexivity.
  - cbn [call_convert_to_mm]. rewrite lookup_insert_eq. reflexivity.
  - apply lookup_insert_eq.
  - repeat (split; [ reflexivity | ]).
    intros w Hw. rewrite !lookup_insert_ne by congruence. reflexivity.
Qed.

(** The pad at (100, 100) is at (25.4, 25.4) after one call and at
    (6.4516, 6.4516) after two. *)
Lemma pad_convert_to_mm_twice_scenario :
  exists (h2 : gmap loc object) (p2 : EeFootprintPad.t),
    (h1 ← call_convert_to_mm 1 2%positive footprint_heap;
     call_convert_to_mm 1 2%positive h1) = Ok h2 /\
    h2 !! 2%positive = Some (OEeFootprintPad p2) /\
    EeFootprintPad.center_x p2 = 6.4516%float /\
    EeFootprintPad.width p2 = 0.64516%float.
Proof.
  destruct (pad_convert_to_mm_twice 0 2%positive footprint_heap scenario_pad)
    as (h1 & h2 & p2 & H1 & H2 & Hl & Hx & _ & Hw & _); [ reflexivity | ].
  exists h2, p2. split; [ rewrite H1; exact H2 | ].
  split; [ exact Hl | ]. split; [ rewrite Hx | rewrite Hw ]; reflexivity.
Defined.

(** X4.  Calls on two different objects commute: converting one and then
    the other gives the heap that the other order gives. *)
Theorem convert_to_mm_calls_commute
    (depth : nat) (l1 l2 : loc) (h : gmap loc object) (o1 o2 : object) :
  h !! l1 = Some o1 -> assigns_to_self o1 = true ->
  h !! l2 = Some o2 -> assigns_to_self o2 = true ->
  l1 <> l2 ->
  exists h1 h2 h' : gmap loc object,
    call_convert_to_mm (S depth) l1 h = Ok h1 /\
    call_convert_to_mm (S depth) l2 h1 = Ok h' /\
    call_convert_to_mm (S depth) l2 h = Ok h2 /\
    call_convert_to_mm (S depth) l1 h2 = Ok h'.
Proof.
  intros H1 Ho1 H2 Ho2 Hne.
  cbn [call_convert_to_mm]. rewrite H1, H2.
  destruct o1; try discriminate Ho1; destruct o2; try discriminate Ho2;
    do 3 eexists;
    (split; [ reflexivity | ]);
    rewrite lookup_insert_ne, H2 by exact Hne;
    (split; [ reflexivity | ]);
    (split; [ reflexivity | ]);
    rewrite lookup_insert_ne, H1 by congruence;
    rewrite insert_insert_ne by congruence; reflexivity.
Qed.

Lemma convert_to_mm_calls_commute_pad_rectangle :
  exists h1 h2 h' : gmap loc object,
    call_convert_to_mm 1 2%positive footprint_heap = Ok h1 /\
    call_convert_to_mm 1 3%positive h1 = Ok h' /\
    call_convert_to_mm 1 3%positive footprint_heap = Ok h2 /\
    call_convert_to_mm 1 2%positive h2 = Ok h'.
Proof.
  apply (convert_to_mm_calls_commute 0 2%positive 3%positive footprint_heap
           (OEeFootprintPad scenario_pad)
           (OEeFootprintRectangle scenario_rectangle));
    (reflexivity || discriminate).
Defined.

(** X5.  A call on a footprint rectangle returns and converts its corner
    and its size, and nothing else: the stroke width of a rectangle stays
    in the native unit, as do its layer, identity and lock flag. *)
Theorem rectangle_convert_to_mm_keeps_stroke_width
    (depth : nat) (l : loc) (h : gmap loc object)
    (r : EeFootprintRectangle.t) :
  h !! l = Some (OEeFootprintRectangle r) ->
  exists r' : EeFootprintRectangle.t,
    call_convert_to_mm (S depth) l h
      = Ok (<[l := OEeFootprintRectangle r']> h) /\
    EeFootprintRectangle.x r' = convert_to_mm (EeFootprintRectangle.x r) /\
    EeFootprintRectangle.y r' = convert_to_mm (EeFootprintRectangle.y r) /\
    EeFootprintRectangle.width r'
      = convert_to_mm (EeFootprintRectangle.width r) /\
    EeFootprintRectangle.height r'
      = convert_to_mm (EeFootprintRectangle.height r) /\
    EeFootprintRectangle.stroke_width r' = EeFootprintRectangle.stroke_width r /\
    EeFootprintRectangle.id r' = EeFootprintRectangle.id r /\
    EeFootprintRectangle.layer_id r' = EeFootprintRectangle.layer_id r /\
    EeFootprintRectangle.is_locked r' = EeFootprintRectangle.is_locked r.
Proof.
  intros Hl. exists (EeFootprintRectangle.convert_to_mm r).
  split; [ cbn [call_convert_to_mm]; rewrite Hl; reflexivity | ].
  repeat split.
Qed.

(** The rectangle at (100, 100) of size 20 x 10 and stroke width 10 comes
    out at (25.4, 25.4) with size 5.08 x 2.54 and stroke width 10. *)
Lemma rectangle_convert_to_mm_scenario :
  exists r' : EeFootprintRectangle.t,
    call_convert_to_mm 1 3%positive footprint_heap
      = Ok (<[3%positive := OEeFootprintRectangle r']> footprint_heap) /\
    EeFootprintRectangle.x r' = 25.4%float /\
    EeFootprintRectangle.width r' = 5.08%float /\
    EeFootprintRectangle.height r' = 2.54%float /\
    EeFootprintRectangle.stroke_width r' = 10%float.
Proof.
  destruct (rectangle_convert_to_mm_keeps_stroke_width 0 3%positive
              footprint_heap scenario_rectangle)
    as (r' & Hcall & Hx & _ & Hw & Hh & Hs & _); [ reflexivity | ].
  exists r'. split; [ exact Hcall | ].
  rewrite Hx, Hw, Hh, Hs. repeat split.
Defined.

(** X6.  A call on a footprint text returns and converts its center, its
    stroke width and its font size; the rotation, the layer and the other
    fields are as before. *)
Theorem text_convert_to_mm_fields
    (depth : nat) (l : loc) (h : gmap loc object) (t : EeFootprintText.t) :
  h !! l = Some (OEeFootprintText t) ->
  exists t' : EeFootprintText.t,
    call_convert_to_mm (S depth) l h = Ok (<[l := OEeFootprintText t']> h) /\
    EeFootprintText.center_x t' = convert_to_mm (EeFootprintText.center_x t) /\
    EeFootprintText.center_y t' = convert_to_mm (EeFootprintText.center_y t) /\
    EeFootprintText.stroke_width t'
      = convert_to_mm (EeFootprintText.stroke_width t) /\
    EeFootprintText.font_size t' = convert_to_mm (EeFootprintText.font_size t) /\
    EeFootprintText.type t' = EeFootprintText.type t /\
    EeFootprintText.rotation t' = EeFootprintText.rotation t /\
    EeFootprintText.miror t' = EeFootprintText.miror t /\
    EeFootprintText.layer_id t' = EeFootprintText.layer_id t /\
    EeFootprintText.net t' = EeFootprintText.net t /\
    EeFootprintText.text t' = EeFootprintText.text t /\
    EeFootprintText.text_path t' = EeFootprintText.text_path t /\
    EeFootprintText.is_displayed t' = EeFootprintText.is_displayed t /\
    EeFootprintText.id t' = EeFootprintText.id t /\
    EeFootprintText.is_locked t' = EeFootprintText.is_locked t.
Proof.
  intros Hl. exists (EeFootprintText.convert_to_mm t).
  split; [ cbn [call_convert_to_mm]; rewrite Hl; reflexivity | ].
  repeat split.
Qed.

(** The text of font size 20 and rotation 90 comes out with font size 5.08
    and rotation 90. *)
Lemma text_convert_to_mm_scenario :
  exists t' : EeFootprintText.t,
    call_convert_to_mm 1 4%positive footprint_heap
      = Ok (<[4%positive := OEeFootprintText t']> footprint_heap) /\
    EeFootprintText.font_size t' = 5.08%float /\
    EeFootprintText.stroke_width t' = 2.54%float /\
    EeFootprintText.rotation t' = 90.
Proof.
  destruct (text_convert_to_mm_fields 0 4%positive footprint_heap scenario_text)
    as (t' & Hcall & _ & _ & Hs & Hf & _ & Hr & _); [ reflexivity | ].
  exists t'. split; [ exact Hcall | ].
  rewrite Hf, Hs, Hr. repeat split.
Defined.

(** X7.  On a bounding box, a track, a hole and a circle of a footprint
    the call returns and converts every float the object holds: both
    coordinates of the box, the stroke width of the track, the center and
    radius of the hole, the center, radius and stroke width of the circle;
    layers, nets, points, identities and lock flags are as before. *)
Theorem small_mutators_convert_every_length
    (depth : nat) (l : loc) (h : gmap loc object) :
  (forall b : EeFootprintBbox.t,
     h !! l = Some (OEeFootprintBbox b) ->
     call_convert_to_mm (S depth) l h
       = Ok (<[l := OEeFootprintBbox
                 {| EeFootprintBbox.x := convert_to_mm (EeFootprintBbox.x b);
                    EeFootprintBbox.y := convert_to_mm (EeFootprintBbox.y b) |}]>
               h)) /\
  (forall t : EeFootprintTrack.t,
     h !! l = Some (OEeFootprintTrack t) ->
     call_convert_to_mm (S depth) l h
       = Ok (<[l := OEeFootprintTrack
                 {| EeFootprintTrack.stroke_width :=
                      convert_to_mm (EeFootprintTrack.stroke_width t);
                    EeFootprintTrack.layer_id := EeFootprintTrack.layer_id t;
                    EeFootprintTrack.net := EeFootprintTrack.net t;
                    EeFootprintTrack.points := EeFootprintTrack.points t;
                    EeFootprintTrack.id := EeFootprintTrack.id t;
                    EeFootprintTrack.is_locked :=
                      EeFootprintTrack.is_locked t |}]> h)) /\
  (forall o : EeFootprintHole.t,
     h !! l = Some (OEeFootprintHole o) ->
     call_convert_to_mm (S depth) l h
       = Ok (<[l := OEeFootprintHole
                 {| EeFootprintHole.center_x :=
                      convert_to_mm (EeFootprintHole.center_x o);
                    EeFootprintHole.center_y :=
                      convert_to_mm (EeFootprintHole.center_y o);
                    EeFootprintHole.radius :=
                      convert_to_mm (EeFootprintHole.radius o);
                    EeFootprintHole.id := EeFootprintHole.id o;
                    EeFootprintHole.is_locked :=
                      EeFootprintHole.is_locked o |}]> h)) /\
  (forall c : EeFootprintCircle.t,
     h !! l = Some (OEeFootprintCircle c) ->
     call_convert_to_mm (S depth) l h
       = Ok (<[l := OEeFootprintCircle
                 {| EeFootprintCircle.cx := convert_to_mm (EeFootprintCircle.cx c);
                    EeFootprintCircle.cy := convert_to_mm (EeFootprintCircle.cy c);
                    EeFootprintCircle.radius :=
                      convert_to_mm (EeFootprintCircle.radius c);
                    EeFootprintCircle.stroke_width :=
                      convert_to_mm (EeFootprintCircle.stroke_width c);
                    EeFootprintCircle.layer_id := EeFootprintCircle.layer_id c;
                    EeFootprintCircle.id := EeFootprintCircle.id c;
                    EeFootprintCircle.is_locked :=
                      EeFootprintCircle.is_locked c |}]> h)).
Proof.
  repeat split; intros o Hl; cbn [call_convert_to_mm]; rewrite Hl;
    reflexivity.
Qed.

(** The track of stroke width 10 comes out with stroke width 2.54. *)
Lemma track_convert_to_mm_scenario :
  call_convert_to_mm 1 5%positive footprint_heap
    = Ok (<[5%positive := OEeFootprintTrack
              {| EeFootprintTrack.stroke_width := 2.54;
                 EeFootprintTrack.layer_id := 3;
                 EeFootprintTrack.net := "";
                 EeFootprintTrack.points := "0 0 10 10";
                 EeFootprintTrack.id := "gge22";
                 EeFootprintTrack.is_locked := false |}]> footprint_heap).
Proof.
  destruct (small_mutators_convert_every_length 0 5%positive footprint_heap)
    as (_ & Htrack & _).
  rewrite (Htrack scenario_track) by reflexivity. reflexivity.
Defined.

(** X8.  The placement does not own its vectors.  When one vector is both
    its translation and its rotation, the call on the placement rescales
    the [x] and [y] of the rotation with those of the translation. *)
Theorem model_3d_shared_vector_is_rescaled
    (depth : nat) (l : loc) (h : gmap loc object) (m : Ee3dModel.t)
    (t : Ee3dModelBase.t) :
  h !! l = Some (OEe3dModel m) ->
  Ee3dModel.rotation m = Ee3dModel.translation m ->
  h !! Ee3dModel.translation m = Some (OEe3dModelBase t) ->
  exists h' : gmap loc object,
    call_convert_to_mm (S (S depth)) l h = Ok h' /\
    h' !! Ee3dModel.rotation m =
      Some (OEe3dModelBase
              {| Ee3dModelBase.x := convert_to_mm (Ee3dModelBase.x t);
                 Ee3dModelBase.y := convert_to_mm (Ee3dModelBase.y t);
                 Ee3dModelBase.z := Ee3dModelBase.z t |}).
Proof.
  intros Hl Hsame Ht. eexists. split.
  - cbn [call_convert_to_mm]. rewrite Hl, Ht. reflexivity.
  - rewrite Hsame. apply lookup_insert_eq.
Qed.

Lemma model_3d_shared_vector_scenario :
  exists h' : gmap loc object,
    call_convert_to_mm 2 1%positive shared_vector_heap = Ok h' /\
    h' !! Ee3dModel.rotation shared_vector_model
      = Some (OEe3dModelBase (Ee3dModelBase.Build 2.54 5.08 30)).
Proof.
  destruct (model_3d_shared_vector_is_rescaled 0 1%positive shared_vector_heap
              shared_vector_model (Ee3dModelBase.Build 10 20 30))
    as (h' & Hcall & Hr); [ reflexivity | reflexivity | reflexivity | ].
  exists h'. split; [ exact Hcall | exact Hr ].
Defined.

(** X9.  There is no conversion of a whole footprint: the aggregate has
    no [convert_to_mm], the call on it raises, and the aggregate, with the
    lists of its entities, is the same after any sequence of calls.  Each
    entity is converted by a call of its own. *)
Theorem footprint_aggregate_has_no_converter
    (h h' : gmap loc object) (l : loc) (f : ee_footprint.t) :
  h !! l = Some (Oee_footprint f) ->
  rtc step h h' ->
  h' !! l = Some (Oee_footprint f) /\
  (forall depth : nat,
     call_convert_to_mm (S depth) l h' = Raise AttributeError) /\
  (forall depth : nat, call_convert_to_mm (S depth) l h = Raise AttributeError).
Proof.
  intros Hl Hsteps.
  assert (Hl' : h' !! l = Some (Oee_footprint f))
    by (eapply steps_frame; eauto).
  split; [ exact Hl' | ].
  split; intros depth; cbn [call_convert_to_mm]; rewrite ?Hl', ?Hl;
    reflexivity.
Qed.

Lemma footprint_aggregate_scenario :
  (<[2%positive := OEeFootprintPad scenario_pad_mm]> footprint_heap)
    !! 1%positive = Some (Oee_footprint scenario_footprint) /\
  call_convert_to_mm 1 1%positive footprint_heap = Raise AttributeError.
Proof.
  destruct (footprint_aggregate_has_no_converter footprint_heap
              (<[2%positive := OEeFootprintPad scenario_pad_mm]> footprint_heap)
              1%positive scenario_footprint)
    as (Hsame & _ & Hraise).
  - reflexivity.
  - apply rtc_once. exists 1%nat, 2%positive. reflexivity.
  - split; [ exact Hsame | apply Hraise ].
Defined.

(** ** More on the scalar converter *)




Lemma Prim2SF_zero (x : float) :
  PrimFloat.eqb x 0 = true -> exists s : bool, Prim2SF x = S754_zero s.
Proof.
  rewrite FloatAxioms.eqb_spec.
  change (Prim2SF 0) with (S754_zero false).
  destruct (Prim2SF x) as [s | s | | s m e]; cbn.
  - intros _. exists s. reflexivity.
  - destruct s; discriminate.
  - discriminate.
  - destruct s; discriminate.
Qed.

(** X11.  A zero length is a fixed point of the converter, sign included:
    the radius 0 of a pad without a hole stays 0 however often the pad is
    converted. *)
Theorem convert_to_mm_zero (x : float) :
  PrimFloat.eqb x 0 = true -> convert_to_mm x = x.
Proof.
  intros Hx. destruct (Prim2SF_zero x Hx) as [s Hs].
  unfold convert_to_mm. apply Prim2SF_inj.
  rewrite !mul_spec, Hs. destruct s; reflexivity.
Qed.

Lemma convert_to_mm_negative_zero :
  PrimFloat.eqb (-0) 0 = true /\ convert_to_mm (-0) = (-0)%float.
Proof.
  split; [ reflexivity | apply convert_to_mm_zero; reflexivity ].
Defined.

(** ** More on the coercion rules and on construction *)

Lemma validation_error_not_caught :
  ValidationError ∉ [ValueError; TypeError].
Proof.
  intros Hin. repeat (apply elem_of_cons in Hin as [Hin | Hin];
                      [ discriminate Hin | ]).
  apply elem_of_nil in Hin. exact Hin.
Qed.

Lemma catch_bool_validator (kinds : list exn) (v : value) :
  ValidationError ∉ kinds ->
  catch kinds (bool_validator v) = bool_validator v.
Proof.
  intros Hk. destruct (bool_validator v) as [b | e] eqn:Hb; [ reflexivity | ].
  assert (e = ValidationError) as ->.
  { destruct v as [| b | n | f | s]; cbn in Hb;
      repeat match type of Hb with
      | (if ?c then _ else _) = _ => destruct c
      end; congruence. }
  cbn. rewrite bool_decide_eq_false_2 by exact Hk. reflexivity.
Qed.

Lemma bool_validator_zero (f : float) :
  PrimFloat.eqb f 0 = true -> bool_validator (VFloat f) = Ok false.
Proof.
  intros Hf. cbn. rewrite Hf.
  destruct (Prim2SF_zero f Hf) as [s Hs].
  rewrite FloatAxioms.eqb_spec, Hs. destruct s; reflexivity.
Qed.

Lemma validate_or_false (targets : list string) (v : value) :
  (v' ← apply_validators [Validator targets or_false] v;
   match v' with
   | VNone => Raise ValidationError
   | _ => catch [ValueError; TypeError] (bool_validator v')
   end)
  = if truthy v then bool_validator v else Ok false.
Proof.
  cbn. unfold py_or. destruct (truthy v) eqn:Hv.
  - destruct v; try discriminate Hv; cbn [mbind result_bind];
      apply catch_bool_validator, validation_error_not_caught.
  - reflexivity.
Qed.

Lemma validate_empty_to_false (targets : list string) (v : value) :
  (v' ← apply_validators [Validator targets empty_to_false] v;
   match v' with
   | VNone => Raise ValidationError
   | _ => catch [ValueError; TypeError] (bool_validator v')
   end)
  = match v with
    | VNone => Raise ValidationError
    | _ => if truthy v then bool_validator v else Ok false
    end.
Proof.
  assert (Hc : forall w, catch [ValueError; TypeError] (bool_validator w)
                         = bool_validator w)
    by (intros w; apply catch_bool_validator, validation_error_not_caught).
  destruct v as [| b | n | f | s]; cbn [apply_validators func empty_to_false
    eq_str catch mbind result_bind truthy].
  - reflexivity.
  - rewrite Hc. destruct b; reflexivity.
  - rewrite Hc. cbn. destruct (n =? 0) eqn:Hn; [ | reflexivity ].
    apply Z.eqb_eq in Hn as ->. reflexivity.
  - rewrite Hc. destruct (PrimFloat.eqb f 0) eqn:Hf; [ | reflexivity ].
    apply bool_validator_zero. exact Hf.
  - destruct (String.eqb s "") eqn:Hs; cbn [negb mbind result_bind];
      [ reflexivity | apply Hc ].
Qed.

(** X12.  The lock flag is coerced by [field or False] in seven classes
    and by [False if field == "" else field] in three.  On every raw
    value but [None] the two spellings give the field the same result: a
    value that is false in Python, the empty string among them, gives
    [False], and any other value is judged by the boolean type.  On
    [None] the first gives [False] and the second is refused. *)
Theorem lock_rule_spellings (v : value) :
  (forall vs : list validator,
     vs ∈ [ EeSymbolPinSettings.validators; EeSymbolPolyline.validators;
            EeSymbolPath.validators; EeFootprintPad.validators;
            EeFootprintTrack.validators; EeFootprintHole.validators;
            EeFootprintCircle.validators ] ->
     validate bool_validator vs "is_locked" v
       = if truthy v then bool_validator v else Ok false) /\
  (forall vs : list validator,
     vs ∈ [ EeFootprintRectangle.validators; EeFootprintArc.validators;
            EeFootprintText.validators ] ->
     validate bool_validator vs "is_locked" v
       = match v with
         | VNone => Raise ValidationError
         | _ => if truthy v then bool_validator v else Ok false
         end).
Proof.
  split; intros vs Hin;
    repeat (apply elem_of_cons in Hin as [-> | Hin]);
    try apply elem_of_nil in Hin; try contradiction;
    unfold validate;
    first
      [ change (pre_validators _ "is_locked")
          with [Validator ["is_locked"%string] or_false];
        apply validate_or_false
      | change (pre_validators _ "is_locked")
          with [Validator ["is_locked"%string] empty_to_false];
        apply validate_empty_to_false ].
Qed.

(** X13.  The pad absorbs the empty encodings of its rotation and of its
    lock flag: when both are given as values that are false in Python
    (the empty string, [None], zero) and every other field has a value of
    its type, the pad is constructed with rotation 0.0 and unlocked. *)
Theorem pad_parse_obj_absorbs_empty {py : Builtins} (raw : gmap string value)
    (p : EeFootprintPad.t) (rotation is_locked : value) :
  raw !! "shape"%string = Some (VStr (EeFootprintPad.shape p)) ->
  raw !! "center_x"%string = Some (VFloat (EeFootprintPad.center_x p)) ->
  raw !! "center_y"%string = Some (VFloat (EeFootprintPad.center_y p)) ->
  raw !! "width"%string = Some (VFloat (EeFootprintPad.width p)) ->
  raw !! "height"%string = Some (VFloat (EeFootprintPad.height p)) ->
  raw !! "layer_id"%string = Some (VInt (EeFootprintPad.layer_id p)) ->
  raw !! "net"%string = Some (VStr (EeFootprintPad.net p)) ->
  raw !! "number"%string = Some (VStr (EeFootprintPad.number p)) ->
  raw !! "hole_radius"%string = Some (VFloat (EeFootprintPad.hole_radius p)) ->
  raw !! "points"%string = Some (VStr (EeFootprintPad.points p)) ->
  raw !! "rotation"%string = Some rotation -> truthy rotation = false ->
  raw !! "id"%string = Some (VStr (EeFootprintPad.id p)) ->
  raw !! "hole_length"%string = Some (VFloat (EeFootprintPad.hole_length p)) ->
  raw !! "hole_point"%string = Some (VStr (EeFootprintPad.hole_point p)) ->
  raw !! "is_plated"%string = Some (VBool (EeFootprintPad.is_plated p)) ->
  raw !! "is_locked"%string = Some is_locked -> truthy is_locked = false ->
  EeFootprintPad.parse_obj raw
    = Ok {| EeFootprintPad.shape := EeFootprintPad.shape p;
            EeFootprintPad.center_x := EeFootprintPad.center_x p;
            EeFootprintPad.center_y := EeFootprintPad.center_y p;
            EeFootprintPad.width := EeFootprintPad.width p;
            EeFootprintPad.height := EeFootprintPad.height p;
            EeFootprintPad.layer_id := EeFootprintPad.layer_id p;
            EeFootprintPad.net := EeFootprintPad.net p;
            EeFootprintPad.number := EeFootprintPad.number p;
            EeFootprintPad.hole_radius := EeFootprintPad.hole_radius p;
            EeFootprintPad.points := EeFootprintPad.points p;
            EeFootprintPad.rotation := 0;
            EeFootprintPad.id := EeFootprintPad.id p;
            EeFootprintPad.hole_length := EeFootprintPad.hole_length p;
            EeFootprintPad.hole_point := EeFootprintPad.hole_point p;
            EeFootprintPad.is_plated := EeFootprintPad.is_plated p;
            EeFootprintPad.is_locked := false |}.
Proof.
  intros H1 H2 H3 H4 H5 H6 H7 H8 H9 H10 H11 Hr H12 H13 H14 H15 H16 Hl.
  unfold EeFootprintPad.parse_obj, required.
  rewrite H1, H2, H3, H4, H5, H6, H7, H8, H9, H10, H11, H12, H13, H14, H15, H16.
  unfold validate.
  change (pre_validators EeFootprintPad.validators "rotation")
    with [Validator ["rotation"%string] or_zero].
  change (pre_validators EeFootprintPad.validators "is_locked")
    with [Validator ["is_locked"%string] or_false].
  eval_pre_validators.
  cbn [apply_validators func or_zero or_false catch mbind result_bind].
  unfold py_or. rewrite Hr, Hl.
  destruct p as [? ? ? ? ? ? ? ? ? ? ? ? ? ? plated ?].
  destruct plated; reflexivity.
Qed.

(** The scenario pad, given with rotation [""] and lock flag [""]. *)
Lemma pad_parse_obj_absorbs_empty_scenario :
  EeFootprintPad.parse_obj (py := in_type_only) (raw_pad (VStr "") (VStr ""))
    = Ok {| EeFootprintPad.shape := "RECT";
            EeFootprintPad.center_x := 100;
            EeFootprintPad.center_y := 100;
            EeFootprintPad.width := 10;
            EeFootprintPad.height := 10;
            EeFootprintPad.layer_id := 1;
            EeFootprintPad.net := "";
            EeFootprintPad.number := "1";
            EeFootprintPad.hole_radius := 0;
            EeFootprintPad.points := "";
            EeFootprintPad.rotation := 0;
            EeFootprintPad.id := "gge5";
            EeFootprintPad.hole_length := 0;
            EeFootprintPad.hole_point := "";
            EeFootprintPad.is_plated := true;
            EeFootprintPad.is_locked := false |}.
Proof.
  apply (pad_parse_obj_absorbs_empty (py := in_type_only) _ scenario_pad
           (VStr "") (VStr ""));
    reflexivity.
Defined.

(** X14.  The wildcard rule of the symbol rectangle does not stop at the
    empty string: a coordinate or size given as the number zero and a
    lock flag given as [False] are replaced by [None] as well, and the
    rectangle is refused, unless the field is [rx] or [ry]. *)
Theorem rectangle_refuses_false_values {py : Builtins}
    (raw : gmap string value) (name : string) (v : value) :
  name ∈ EeSymbolRectangle.fields ->
  name <> "rx"%string -> name <> "ry"%string ->
  raw !! name = Some v -> truthy v = false ->
  raises (EeSymbolRectangle.parse_obj raw).
Proof.
  intros Hin Hrx Hry Hraw Hv.
  assert (Heq : forall (A : Type) (tv : value -> result A),
             required tv EeSymbolRectangle.validators raw name
               = Raise ValidationError).
  { intros A tv. eapply rectangle_required_falsy; eauto. }
  unfold EeSymbolRectangle.fields in Hin.
  repeat (apply elem_of_cons in Hin as [-> | Hin]);
    try apply elem_of_nil in Hin; try contradiction;
    unfold EeSymbolRectangle.parse_obj; raises_at Heq.
Qed.

(** A rectangle of width 0.0 is refused. *)
Lemma rectangle_refuses_zero_width :
  raises (EeSymbolRectangle.parse_obj (py := in_type_only)
            (raw_rectangle (VFloat 2) (VFloat 2) (VFloat 0))).
Proof.
  apply (rectangle_refuses_false_values (py := in_type_only) _
           "width"%string (VFloat 0)).
  - unfold EeSymbolRectangle.fields. do 4 apply list_elem_of_further.
    apply list_elem_of_here.
  - discriminate.
  - discriminate.
  - reflexivity.
  - reflexivity.
Defined.

(** Both spellings on [""], and on [None]. *)
Lemma lock_rule_spellings_on_empty :
  validate bool_validator EeFootprintPad.validators "is_locked" (VStr "")
    = Ok false /\
  validate bool_validator EeFootprintRectangle.validators "is_locked" (VStr "")
    = Ok false /\
  validate bool_validator EeFootprintPad.validators "is_locked" VNone
    = Ok false /\
  validate bool_validator EeFootprintRectangle.validators "is_locked" VNone
    = Raise ValidationError.
Proof.
  destruct (lock_rule_spellings (VStr "")) as (Hor & Heq).
  destruct (lock_rule_spellings VNone) as (Hor' & Heq').
  split; [ | split; [ | split ] ].
  - apply (Hor EeFootprintPad.validators).
    do 3 apply list_elem_of_further. apply list_elem_of_here.
  - apply (Heq EeFootprintRectangle.validators). apply list_elem_of_here.
  - apply (Hor' EeFootprintPad.validators).
    do 3 apply list_elem_of_further. apply list_elem_of_here.
  - apply (Heq' EeFootprintRectangle.validators). apply list_elem_of_here.
Defined.

(** X15.  The three coordinates of a 3D vector are optional one by one: a
    coordinate that the raw record lacks is 0.0 and one given as a float
    is kept. *)
Theorem model_3d_base_defaults {py : Builtins} (raw : gmap string value) :
  (forall name : string,
     name ∈ ["x"; "y"; "z"]%string ->
     raw !! name = None \/ exists f : float, raw !! name = Some (VFloat f)) ->
  Ee3dModelBase.parse_obj raw
    = Ok {| Ee3dModelBase.x :=
              match raw !! "x"%string with Some (VFloat f) => f | _ => 0%float end;
            Ee3dModelBase.y :=
              match raw !! "y"%string with Some (VFloat f) => f | _ => 0%float end;
            Ee3dModelBase.z :=
              match raw !! "z"%string with Some (VFloat f) => f | _ => 0%float end |}.
Proof.
  intros Hraw.
  assert (Hx := Hraw "x"%string ltac:(set_unfold; tauto)).
  assert (Hy := Hraw "y"%string ltac:(set_unfold; tauto)).
  assert (Hz := Hraw "z"%string ltac:(set_unfold; tauto)).
  unfold Ee3dModelBase.parse_obj, with_default.
  destruct Hx as [-> | [fx ->]], Hy as [-> | [fy ->]], Hz as [-> | [fz ->]];
    reflexivity.
Qed.

(** X20.  Leaving a coordinate of a 3D vector out is not giving it as
    [None]: the default does not stand in for [None], the vector is
    refused. *)
Theorem model_3d_base_refuses_none {py : Builtins} (raw : gmap string value)
    (name : string) :
  name ∈ ["x"; "y"; "z"]%string -> raw !! name = Some VNone ->
  raises (Ee3dModelBase.parse_obj raw).
Proof.
  intros Hin Hraw.
  assert (Heq : forall d : float,
             with_default float_validator [] raw name d = Raise ValidationError).
  { intros d. unfold with_default. rewrite Hraw. reflexivity. }
  repeat (apply elem_of_cons in Hin as [-> | Hin]);
    try apply elem_of_nil in Hin; try contradiction;
    unfold Ee3dModelBase.parse_obj; raises_at Heq.
Qed.

(** Only [y] is given: the vector is (0.0, 20, 0.0). *)
Lemma model_3d_base_defaults_y_only :
  Ee3dModelBase.parse_obj (py := in_type_only) {[ "y"%string := VFloat 20 ]}
    = Ok (Ee3dModelBase.Build 0 20 0).
Proof.
  rewrite (model_3d_base_defaults (py := in_type_only)); [ reflexivity | ].
  intros name Hin.
  repeat (apply elem_of_cons in Hin as [-> | Hin]);
    try apply elem_of_nil in Hin; try contradiction;
    [ left | right; eexists | left ]; reflexivity.
Defined.

Lemma model_3d_base_refuses_none_z :
  raises (Ee3dModelBase.parse_obj (py := in_type_only)
            {[ "z"%string := VNone ]}).
Proof.
  apply (model_3d_base_refuses_none (py := in_type_only) _ "z"%string).
  - do 2 apply list_elem_of_further. apply list_elem_of_here.
  - reflexivity.
Defined.

Lemma catch_escape {A : Type} (r : result A) (e : exn) :
  catch [ValueError; TypeError] r = Raise e ->
  e <> ValueError /\ e <> TypeError.
Proof.
  destruct r as [a | e0]; [ discriminate | ].
  destruct e0; vm_compute; intros [= <-]; split; discriminate.
Qed.

Lemma apply_validators_escape (fs : list validator) :
  forall (v : value) (e : exn),
    apply_validators fs v = Raise e -> e <> ValueError /\ e <> TypeError.
Proof.
  induction fs as [| f fs IH]; intros v e He; [ discriminate | ].
  cbn [apply_validators] in He.
  destruct (catch [ValueError; TypeError] (func f v)) as [v' | e'] eqn:Hc.
  - eapply IH. exact He.
  - injection He as <-. eapply catch_escape. exact Hc.
Qed.

Lemma validate_escape {A : Type} (tv : value -> result A)
    (vs : list validator) (name : string) (v : value) (e : exn) :
  validate tv vs name v = Raise e -> e <> ValueError /\ e <> TypeError.
Proof.
  unfold validate. intros He.
  destruct (apply_validators (pre_validators vs name) v) as [v' | e'] eqn:Hp.
  - cbn [mbind result_bind] in He. destruct v';
      try (eapply catch_escape; exact He).
    injection He as <-. split; discriminate.
  - injection He as <-. eapply apply_validators_escape. exact Hp.
Qed.

Lemma required_escape {A : Type} (tv : value -> result A)
    (vs : list validator) (raw : gmap string value) (name : string) (e : exn) :
  required tv vs raw name = Raise e -> e <> ValueError /\ e <> TypeError.
Proof.
  unfold required. destruct (raw !! name) as [v |].
  - apply validate_escape.
  - intros [= <-]. split; discriminate.
Qed.

Lemma with_default_escape {A : Type} (tv : value -> result A)
    (vs : list validator) (raw : gmap string value) (name : string) (d : A)
    (e : exn) :
  with_default tv vs raw name d = Raise e -> e <> ValueError /\ e <> TypeError.
Proof.
  unfold with_default. destruct (raw !! name) as [v |].
  - apply validate_escape.
  - discriminate.
Qed.

Lemma optional_escape {A : Type} (tv : value -> result A)
    (vs : list validator) (raw : gmap string value) (name : string) (e : exn) :
  optional tv vs raw name = Raise e -> e <> ValueError /\ e <> TypeError.
Proof.
  unfold optional. destruct (raw !! name) as [v |]; [ | discriminate ].
  intros He.
  destruct (apply_validators (pre_validators vs name) v) as [v' | e'] eqn:Hp.
  - cbn [mbind result_bind] in He.
    assert (Hc : forall w : value,
               (a ← catch [ValueError; TypeError] (tv w); Ok (Some a))
                 = Raise e -> e <> ValueError /\ e <> TypeError).
    { intros w Hw.
      destruct (catch [ValueError; TypeError] (tv w)) as [a | e''] eqn:Hcw;
        [ discriminate Hw | ].
      injection Hw as <-. eapply catch_escape. exact Hcw. }
    destruct v'; try (eapply Hc; exact He). discriminate He.
  - injection He as <-. eapply apply_validators_escape. exact Hp.
Qed.

Lemma collect_raise {A B : Type} (rf : result (A -> B)) (ra : result A)
    (e : exn) :
  rf <*> ra = Raise e -> rf = Raise e \/ ra = Raise e.
Proof.
  destruct rf as [f | []], ra as [a | e']; cbn; intros [= <-]; auto.
Qed.

(** Trace a raise of a constructor back to the field that raised. *)
Ltac escape_field He :=
  repeat (apply collect_raise in He as [He | He];
          [ | first [ eapply required_escape; exact He
                    | eapply optional_escape; exact He
                    | eapply with_default_escape; exact He ] ]);
  discriminate He.

(** X16.  What leaves one of the five constructors modelled here is an
    exception of class [ValidationError], or one of a class that pydantic
    does not catch.  An exception of class [ValueError] or [TypeError]
    that a coercion rule or a conversion raises, as [float] does in the
    font size rule on a string like ["apt"], is never what the caller
    gets: it comes wrapped in the validation error of the entity. *)
Theorem parse_obj_reports_validation_errors {py : Builtins}
    (raw : gmap string value) (e : exn) :
  EeSymbolPinSettings.parse_obj raw = Raise e \/
  EeSymbolPinName.parse_obj raw = Raise e \/
  EeSymbolRectangle.parse_obj raw = Raise e \/
  EeFootprintPad.parse_obj raw = Raise e \/
  Ee3dModelBase.parse_obj raw = Raise e ->
  e = ValidationError \/ e = OverflowError \/ e = AttributeError \/
  e = RecursionError.
Proof.
  intros He.
  assert (Hne : e <> ValueError /\ e <> TypeError).
  { destruct He as [He | [He | [He | [He | He]]]].
    - unfold EeSymbolPinSettings.parse_obj in He. escape_field He.
    - unfold EeSymbolPinName.parse_obj in He. escape_field He.
    - unfold EeSymbolRectangle.parse_obj in He. escape_field He.
    - unfold EeFootprintPad.parse_obj in He. escape_field He.
    - unfold Ee3dModelBase.parse_obj in He. escape_field He. }
  destruct Hne as [Hv Ht]. destruct e; tauto.
Qed.

(** The font size ["apt"]: the rule calls [float("a")], which raises
    [ValueError], and the label is refused with a validation error. *)
Lemma parse_obj_reports_font_size :
  EeSymbolPinName.empty_str_font (py := float_refuses_strings) (VStr "apt")
    = Raise ValueError /\
  EeSymbolPinName.parse_obj (py := float_refuses_strings)
    (raw_pin_name (VStr "apt")) = Raise ValidationError.
Proof.
  split; [ reflexivity | ].
  destruct (parse_obj_reports_validation_errors (py := float_refuses_strings)
              (raw_pin_name (VStr "apt")) ValidationError)
    as [He | [He | [He | He]]];
    first [ right; left; reflexivity | reflexivity | discriminate He ].
Defined.

(** X17.  A pin label whose font size is given as a value that is false
    in Python, the empty string, [None] or zero, is constructed with the
    font size 7.0; the marker ["show"] makes it displayed. *)
Theorem pin_name_parse_obj_default_font {py : Builtins}
    (raw : gmap string value) (x y : float) (rotation : Z)
    (text anchor font : string) (font_size : value) :
  raw !! "is_displayed"%string = Some (VStr "show") ->
  raw !! "pos_x"%string = Some (VFloat x) ->
  raw !! "pos_y"%string = Some (VFloat y) ->
  raw !! "rotation"%string = Some (VInt rotation) -> rotation <> 0 ->
  raw !! "text"%string = Some (VStr text) ->
  raw !! "text_anchor"%string = Some (VStr anchor) ->
  raw !! "font"%string = Some (VStr font) ->
  raw !! "font_size"%string = Some font_size -> truthy font_size = false ->
  EeSymbolPinName.parse_obj raw
    = Ok {| EeSymbolPinName.is_displayed := true;
            EeSymbolPinName.pos_x := x;
            EeSymbolPinName.pos_y := y;
            EeSymbolPinName.rotation := rotation;
            EeSymbolPinName.text := text;
            EeSymbolPinName.text_anchor := anchor;
            EeSymbolPinName.font := font;
            EeSymbolPinName.font_size := 7 |}.
Proof.
  intros Hd Hx Hy Hr Hr0 Ht Ha Hf Hs Hfalse.
  assert (Hfont : EeSymbolPinName.empty_str_font font_size = Ok (VFloat 7)).
  { destruct font_size as [| b | n | f | s];
      try (unfold EeSymbolPinName.empty_str_font, py_or; rewrite Hfalse;
           reflexivity).
    apply negb_false_iff, String.eqb_eq in Hfalse as ->. reflexivity. }
  unfold EeSymbolPinName.parse_obj, required.
  rewrite Hd, Hx, Hy, Hr, Ht, Ha, Hf, Hs. unfold validate.
  change (pre_validators EeSymbolPinName.validators "font_size")
    with [Validator ["font_size"%string] EeSymbolPinName.empty_str_font].
  eval_pre_validators.
  cbn [apply_validators func]. rewrite Hfont.
  destruct rotation; [ congruence | | ]; reflexivity.
Qed.

Lemma pin_name_parse_obj_default_font_scenario :
  EeSymbolPinName.parse_obj (py := in_type_only) (raw_pin_name (VStr ""))
    = Ok {| EeSymbolPinName.is_displayed := true;
            EeSymbolPinName.pos_x := 380;
            EeSymbolPinName.pos_y := 300;
            EeSymbolPinName.rotation := 180;
            EeSymbolPinName.text := "VCC";
            EeSymbolPinName.text_anchor := "start";
            EeSymbolPinName.font := "";
            EeSymbolPinName.font_size := 7 |}.
Proof.
  apply (pin_name_parse_obj_default_font (py := in_type_only) _ 380%float
           300%float 180 "VCC"%string "start"%string ""%string (VStr ""));
    (reflexivity || discriminate).
Defined.

(** X18.  The first end-to-end scenario: pin settings given with
    [is_displayed] ["show"], rotation [""] and lock flag [""] are
    constructed displayed, unlocked and with rotation 0, the integer that
    [int] makes of the 0.0 of the rotation rule. *)
Theorem pin_settings_parse_obj_scenario {py : Builtins}
    (raw : gmap string value) (type number id : string) (x y : float) :
  py_int (VFloat 0) = Ok 0 ->
  raw !! "is_displayed"%string = Some (VStr "show") ->
  raw !! "type"%string = Some (VStr type) ->
  raw !! "spice_pin_number"%string = Some (VStr number) ->
  raw !! "pos_x"%string = Some (VFloat x) ->
  raw !! "pos_y"%string = Some (VFloat y) ->
  raw !! "rotation"%string = Some (VStr "") ->
  raw !! "id"%string = Some (VStr id) ->
  raw !! "is_locked"%string = Some (VStr "") ->
  EeSymbolPinSettings.parse_obj raw
    = Ok {| EeSymbolPinSettings.is_displayed := true;
            EeSymbolPinSettings.type := type;
            EeSymbolPinSettings.spice_pin_number := number;
            EeSymbolPinSettings.pos_x := x;
            EeSymbolPinSettings.pos_y := y;
            EeSymbolPinSettings.rotation := 0;
            EeSymbolPinSettings.id := id;
            EeSymbolPinSettings.is_locked := false |}.
Proof.
  intros Hint Hd Ht Hn Hx Hy Hr Hi Hl.
  unfold EeSymbolPinSettings.parse_obj, required.
  rewrite Hd, Ht, Hn, Hx, Hy, Hr, Hi, Hl. unfold validate.
  eval_pre_validators. cbn. rewrite Hint. reflexivity.
Qed.

Lemma pin_settings_parse_obj_scenario_show :
  EeSymbolPinSettings.parse_obj (py := in_type_and_zero)
    (<["rotation"%string := VStr ""]>
       (<["is_locked"%string := VStr ""]> (raw_pin_settings "0")))
  = Ok {| EeSymbolPinSettings.is_displayed := true;
          EeSymbolPinSettings.type := "0";
          EeSymbolPinSettings.spice_pin_number := "1";
          EeSymbolPinSettings.pos_x := 390;
          EeSymbolPinSettings.pos_y := 300;
          EeSymbolPinSettings.rotation := 0;
          EeSymbolPinSettings.id := "gge12";
          EeSymbolPinSettings.is_locked := false |}.
Proof.
  apply (pin_settings_parse_obj_scenario (py := in_type_and_zero));
    reflexivity.
Defined.

(** X19.  The displayed flag has opposite markers on the two sides.  A
    pin class takes ["show"] as displayed and refuses the empty string,
    which its rule passes on to the boolean type; the footprint text
    takes the empty string as displayed and refuses ["show"]. *)
Theorem displayed_markers_are_opposite {py : Builtins} :
  (forall vs : list validator,
     vs ∈ [ EeSymbolPinSettings.validators; EeSymbolPinName.validators;
            EeSymbolPinDotBis.validators; EeSymbolPinClock.validators ] ->
     validate bool_validator vs "is_displayed" (VStr "show") = Ok true /\
     validate bool_validator vs "is_displayed" (VStr "")
       = Raise ValidationError) /\
  validate bool_validator EeFootprintText.validators "is_displayed" (VStr "")
    = Ok true /\
  validate bool_validator EeFootprintText.validators "is_displayed"
    (VStr "show") = Raise ValidationError.
Proof.
  split; [ | split; reflexivity ].
  intros vs Hin.
  repeat (apply elem_of_cons in Hin as [-> | Hin]);
    try apply elem_of_nil in Hin; try contradiction;
    split; reflexivity.
Qed.

Lemma displayed_markers_pin_clock :
  validate bool_validator EeSymbolPinClock.validators "is_displayed"
    (VStr "show") = Ok true /\
  validate bool_validator EeSymbolPinClock.validators "is_displayed" (VStr "")
    = Raise ValidationError.
Proof.
  destruct (displayed_markers_are_opposite (py := in_type_only)) as (Hpin & _).
  apply Hpin. do 3 apply list_elem_of_further. apply list_elem_of_here.
Defined.
